(** * Inventory store, history engine and record resolution

    A shallow embedding of the Python inventory application
    (app/utilities.py, app/inventory_manager.py, app/import_manager.py,
    app/export_manager.py up to the encoding of the files, the routes
    /clear, /update, /search and /bulk_update of app/app.py and the routes
    of app/api_routes.py) and the properties of its undo/redo log,
    key-space padding, record resolution, exports and imports.

    Modelling conventions.
    - A Python [str] is a Rocq [string]; [upper], [lower] and [strip] act
      on the ASCII range (bytes above 127 are left alone).
    - A Python [int] is a [Z].  [PyStr.int] and [PyStr.str_of_int] read
      and write decimal numerals of any length; CPython from 3.11 on
      raises ValueError beyond 4300 digits, which [PyStr.int_limited]
      adds where a request body is read.
    - The sqlite table [drawers], PRIMARY KEY (cabinet, row, column), is a
      finite map from that key to the two nullable columns (name, qty).
      The rows of one cabinet are fetched in the order of the index of
      that key: by row, then by column, compared as text.
    - The column [qty] of the model stores any integer; sqlite stores 64
      signed bits and sqlite3 raises OverflowError beyond them.
      [sqlite_integer] singles out the quantities sqlite takes.
    - A text file is its content: [export_txt] joins its lines with line
      feeds and [import_txt_file] splits the content with
      [str.splitlines].
    - The body of a request is a JSON value ([App.Json]); the members
      [id] and [cabinet] of an object, which end in the history as
      identifiers, are strings or absent.
    - A Python [dict] whose iteration order is observable is an
      association list with the insertion-order semantics of [dict].
    - The instance attributes of [InventoryManager] and the database file
      are threaded through a state-and-exception monad; an exception
      leaves the mutations made before it in place, as in Python.
    - sqlite3 can raise on any access.  The state carries the outcomes of
      the coming accesses ([sqlite_faults]: [true] = that access raises);
      an exhausted list means the database keeps answering. *)

From Stdlib Require Import ZArith Ascii String List Bool Lia Permutation DecimalString DecimalPos.
From stdpp Require Import base option list gmap strings sorting.

Local Open Scope string_scope.
Local Open Scope list_scope.
Local Open Scope Z_scope.

(* ===================================================================== *)
(** ** Python string operations used by the program                       *)
(* ===================================================================== *)

Module PyStr.

Definition code (c : ascii) : N := N_of_ascii c.

Definition is_lower (c : ascii) : bool := ((97 <=? code c) && (code c <=? 122))%N.
Definition is_upper (c : ascii) : bool := ((65 <=? code c) && (code c <=? 90))%N.
Definition is_digit (c : ascii) : bool := ((48 <=? code c) && (code c <=? 57))%N.

(** [str.isspace] on the ASCII range: TAB, LF, VT, FF, CR, FS, GS, RS,
    US and SPACE. *)
Definition is_space (c : ascii) : bool :=
  (((9 <=? code c) && (code c <=? 13)) || ((28 <=? code c) && (code c <=? 32)))%N.

Definition upper_char (c : ascii) : ascii :=
  if is_lower c then ascii_of_N (code c - 32) else c.
Definition lower_char (c : ascii) : ascii :=
  if is_upper c then ascii_of_N (code c + 32) else c.

(** [s.upper()] and [s.lower()] *)
Fixpoint upper (s : string) : string :=
  match s with
  | EmptyString => EmptyString
  | String c r => String (upper_char c) (upper r)
  end.
Fixpoint lower (s : string) : string :=
  match s with
  | EmptyString => EmptyString
  | String c r => String (lower_char c) (lower r)
  end.

(** [len(s)] *)
Definition len (s : string) : Z := Z.of_nat (String.length s).

Fixpoint lstrip (s : string) : string :=
  match s with
  | EmptyString => EmptyString
  | String c r => if is_space c then lstrip r else s
  end.
Fixpoint rstrip (s : string) : string :=
  match s with
  | EmptyString => EmptyString
  | String c r =>
      match rstrip r with
      | EmptyString => if is_space c then EmptyString else String c EmptyString
      | r' => String c r'
      end
  end.
(** [s.strip()] *)
Definition strip (s : string) : string := rstrip (lstrip s).

(** [ch in s] for a one-character [ch] *)
Fixpoint contains (ch : ascii) (s : string) : bool :=
  match s with
  | EmptyString => false
  | String c r => Ascii.eqb c ch || contains ch r
  end.

(** [s.split(ch)]: never empty, [''.split(',') == ['']]. *)
Fixpoint split (ch : ascii) (s : string) : list string :=
  match s with
  | EmptyString => [EmptyString]
  | String c r =>
      if Ascii.eqb c ch then EmptyString :: split ch r
      else match split ch r with
           | p :: ps => String c p :: ps
           | [] => [String c EmptyString]
           end
  end.

(** [sep.join(parts)] *)
Fixpoint join (sep : string) (parts : list string) : string :=
  match parts with
  | [] => EmptyString
  | [p] => p
  | p :: ps => p +:+ sep +:+ join sep ps
  end.

(** [s.find(ch)] and [s.rfind(ch)]: the index, or -1. *)
Fixpoint find (ch : ascii) (s : string) : Z :=
  match s with
  | EmptyString => -1
  | String c r =>
      if Ascii.eqb c ch then 0
      else let i := find ch r in if i =? -1 then -1 else i + 1
  end.
Fixpoint rfind (ch : ascii) (s : string) : Z :=
  match s with
  | EmptyString => -1
  | String c r =>
      let i := rfind ch r in
      if negb (i =? -1) then i + 1
      else if Ascii.eqb c ch then 0 else -1
  end.

(** [s[0]] of a non-empty string, as a one-character string, and
    [s[1:]]. *)
Definition head (s : string) : string :=
  match s with
  | EmptyString => EmptyString
  | String c _ => String c EmptyString
  end.
Definition tail (s : string) : string :=
  match s with
  | EmptyString => EmptyString
  | String _ r => r
  end.

(** [s[lo:hi]] for indices that are not negative. *)
Definition slice (s : string) (lo hi : Z) : string :=
  String.substring (Z.to_nat lo) (Z.to_nat hi - Z.to_nat lo)
    (String.substring 0 (Z.to_nat hi) s).
(** [s[:hi]] *)
Definition take (s : string) (hi : Z) : string := slice s 0 hi.

(** Decimal digits with single underscores between them, as [int]
    accepts them: the accumulator is the value read so far, [prev_digit]
    tells whether the character before was a digit. *)
Fixpoint digits (s : string) (acc : Z) (prev_digit : bool) : option Z :=
  match s with
  | EmptyString => if prev_digit then Some acc else None
  | String c r =>
      if is_digit c then digits r (10 * acc + Z.of_N (code c - 48)) true
      else if Ascii.eqb c "_" then
             if prev_digit then digits r acc false else None
           else None
  end.

(** [int(s)] in base 10; [None] stands for ValueError. *)
Definition int (s : string) : option Z :=
  match strip s with
  | String "-" r => option_map Z.opp (digits r 0 false)
  | String "+" r => digits r 0 false
  | r => digits r 0 false
  end.

(** [sub in s] *)
Fixpoint is_in (sub s : string) : bool :=
  String.prefix sub s ||
  match s with
  | EmptyString => false
  | String _ r => is_in sub r
  end.

(** [chr(n)] for a code point of the ASCII range *)
Definition chr (n : Z) : string := String (ascii_of_N (Z.to_N n)) EmptyString.





(** The number of digits of a numeral. *)
Definition digit_count (s : string) : Z :=
  Z.of_nat (List.length (List.filter is_digit (list_ascii_of_string s))).

(** [int(s)] with the limit that CPython 3.11 and later put on the
    length of a numeral: more than 4300 digits is a ValueError.  [int]
    above has no such limit. *)
Definition int_limited (s : string) : option Z :=
  if 4300 <? digit_count s then None else int s.

End PyStr.

(* ===================================================================== *)
(** ** Python dict with observable insertion order                        *)
(* ===================================================================== *)

Module PyDict.
Section Dict.
Context {V : Type}.

Definition dict := list (string * V).

(** [d.get(k)] / [d[k]] *)
Fixpoint get (k : string) (d : dict) : option V :=
  match d with
  | [] => None
  | (k', v) :: r => if String.eqb k' k then Some v else get k r
  end.

(** [k in d] *)
Definition mem (k : string) (d : dict) : bool :=
  match get k d with Some _ => true | None => false end.

(** [d[k] = v]: an existing key keeps its position, a new key goes last. *)
Fixpoint set (k : string) (v : V) (d : dict) : dict :=
  match d with
  | [] => [(k, v)]
  | (k', v') :: r =>
      if String.eqb k' k then (k, v) :: r else (k', v') :: set k v r
  end.

(** [d.keys()] *)
Definition keys (d : dict) : list string := map fst d.

(** [next((k for k, v in d.items() if p v), None)] *)
Fixpoint first_key (p : V -> bool) (d : dict) : option string :=
  match d with
  | [] => None
  | (k, v) :: r => if p v then Some k else first_key p r
  end.
End Dict.
Arguments dict V : clear implicits.
End PyDict.


(* ===================================================================== *)
(** ** app/inventory_manager.py                                           *)
(* ===================================================================== *)

(** The dict [{"name": ..., "qty": ...}] handed out by the read paths. *)
Record Drawer := { name : string; qty : Z }.

Definition empty_drawer : Drawer := {| name := ""; qty := 0 |}.

(** The columns [name TEXT] and [qty INTEGER] of a stored row; both are
    nullable. *)
Record DbRow := { col_name : option string; col_qty : option Z }.

(** The table [drawers], keyed by its primary key (cabinet, row, column). *)
Abbreviation Table := (gmap (string * string * string) DbRow).

(** [action_data['type']] *)
Inductive ActionType := Delete | Update.

(** The dict [action_data] of [update_drawer]. *)
Record Action := {
  a_id : string;
  a_cabinet : string;
  prev_name : string;
  prev_qty : Z;
  new_name : string;
  new_qty : Z;
  a_type : ActionType
}.

(** The attributes of an [InventoryManager], the contents of the database
    file at [db_path], and the outcomes of the coming sqlite accesses. *)
Record Manager := {
  db : Table;
  action_history : list Action;
  redo_stack : list Action;
  sqlite_faults : list bool
}.

Definition set_db (t : Table) (st : Manager) : Manager :=
  {| db := t; action_history := action_history st;
     redo_stack := redo_stack st; sqlite_faults := sqlite_faults st |}.
Definition set_action_history (h : list Action) (st : Manager) : Manager :=
  {| db := db st; action_history := h;
     redo_stack := redo_stack st; sqlite_faults := sqlite_faults st |}.
Definition set_redo_stack (r : list Action) (st : Manager) : Manager :=
  {| db := db st; action_history := action_history st;
     redo_stack := r; sqlite_faults := sqlite_faults st |}.
Definition set_sqlite_faults (f : list bool) (st : Manager) : Manager :=
  {| db := db st; action_history := action_history st;
     redo_stack := redo_stack st; sqlite_faults := f |}.

(** *** State and exceptions *)

Inductive exn := SqliteError | ValueError | KeyError.

Inductive Outcome (A : Type) :=
| Ret (a : A)
| Raise (e : exn).
Arguments Ret {A} a.
Arguments Raise {A} e.

Definition M (A : Type) : Type := Manager -> Outcome A * Manager.

Definition ret {A} (a : A) : M A := fun st => (Ret a, st).
Definition raise {A} (e : exn) : M A := fun st => (Raise e, st).
Definition bind {A B} (m : M A) (k : A -> M B) : M B :=
  fun st => match m st with
            | (Ret a, st') => k a st'
            | (Raise e, st') => (Raise e, st')
            end.
(** [try: m  except Exception as e: h e] *)
Definition try_except {A} (m : M A) (h : exn -> M A) : M A :=
  fun st => match m st with
            | (Ret a, st') => (Ret a, st')
            | (Raise e, st') => h e st'
            end.
Definition modify (f : Manager -> Manager) : M unit := fun st => (Ret tt, f st).

Notation "'do' x <- m ; k" := (bind m (fun x => k))
  (at level 10, x name, m at level 100, k at level 200).

(** One sqlite access ([_connect], [execute], [commit], [close]): it
    raises when the next scheduled outcome says so, and then leaves the
    table as it was. *)
Definition next_fault (st : Manager) : bool * Manager :=
  match sqlite_faults st with
  | [] => (false, st)
  | f :: fs => (f, set_sqlite_faults fs st)
  end.
Definition sqlite_query {A} (q : Table -> A) : M A :=
  fun st => let (f, st') := next_fault st in
            if f then (Raise SqliteError, st') else (Ret (q (db st')), st').
Definition sqlite_exec (u : Table -> Table) : M unit :=
  fun st => let (f, st') := next_fault st in
            if f then (Raise SqliteError, st') else (Ret tt, set_db (u (db st')) st').

(** [x or ""] and [x or 0] on a nullable column *)
Definition or_empty (x : option string) : string := default "" x.
Definition or_zero (x : option Z) : Z := default 0 x.

Definition drawer_of_row (r : DbRow) : Drawer :=
  {| name := or_empty (col_name r); qty := or_zero (col_qty r) |}.

(** [not drawer_id or len(drawer_id) < 2] *)
Definition invalid_id (drawer_id : string) : bool :=
  String.eqb drawer_id "" || (PyStr.len drawer_id <? 2).

(** The order of the index of the primary key within one cabinet: by
    [row], then by [column], both compared as text. *)
Definition key_leb (e1 e2 : string * string * option string * option Z) : bool :=
  match String.compare e1.1.1.1 e2.1.1.1 with
  | Lt => true
  | Eq => String.leb e1.1.1.2 e2.1.1.2
  | Gt => false
  end.

Definition key_le (e1 e2 : string * string * option string * option Z) : Prop :=
  key_leb e1 e2 = true.

#[global] Instance key_le_dec e1 e2 : Decision (key_le e1 e2).
Proof. unfold key_le. apply _. Defined.

(** The rows [SELECT row, column, name, qty FROM drawers WHERE cabinet = ?]
    fetches.  sqlite answers the query through the index of the primary
    key (cabinet, row, column), so the rows of a cabinet come in the order
    of that index. *)
Definition select_cabinet (cabinet : string) (t : Table)
  : list (string * string * option string * option Z) :=
  merge_sort key_le
    (omap (fun '((c, row, column, r) : string * string * string * DbRow) =>
             if String.eqb c cabinet
             then Some (row, column, col_name r, col_qty r) else None)
          (map_to_list t)).

Definition get_inventory (cabinet : string) : M (PyDict.dict Drawer) :=
  try_except
    (do rows <- sqlite_query (select_cabinet cabinet) ;
     ret (fold_left
            (fun inventory '(row, column, nm, q) =>
               PyDict.set (PyStr.upper (row +:+ column))
                          {| name := or_empty nm; qty := or_zero q |} inventory)
            rows []))
    (fun _ => ret []).

Definition get_drawer (drawer_id cabinet : string) : M Drawer :=
  if invalid_id drawer_id then ret empty_drawer
  else
    let row := PyStr.upper (PyStr.head drawer_id) in
    let column := PyStr.tail drawer_id in
    try_except
      (do result_row <- sqlite_query (fun t => t !! (cabinet, row, column)) ;
       match result_row with
       | Some r => ret (drawer_of_row r)
       | None => ret empty_drawer
       end)
      (fun _ => ret empty_drawer).

Definition _update_drawer_in_db (drawer_id nm : string) (q : Z) (cabinet : string)
  : M unit :=
  if invalid_id drawer_id then ret tt
  else
    let row_char := PyStr.upper (PyStr.head drawer_id) in
    let column_num := PyStr.tail drawer_id in
    sqlite_exec (fun t => <[(cabinet, row_char, column_num) :=
                              {| col_name := Some nm; col_qty := Some q |}]> t).

(** [l.append(x)] and [l.pop()] on a Python list *)
Definition append {A} (x : A) (l : list A) : list A := l ++ [x].
Definition pop {A} (l : list A) : option (A * list A) :=
  match rev l with
  | [] => None
  | x :: r => Some (x, rev r)
  end.

Definition _record_action (action : Action) : M unit :=
  do _ <- modify (fun st => set_action_history (append action (action_history st)) st) ;
  modify (set_redo_stack []).

Definition update_drawer (drawer_id new_nm : string) (new_q : Z) (cabinet : string)
  : M unit :=
  do old <- get_drawer drawer_id cabinet ;
  let is_new := String.eqb (name old) "" && (qty old =? 0) in
  let action_data := {|
    a_id := drawer_id;
    a_cabinet := cabinet;
    prev_name := name old;
    prev_qty := qty old;
    new_name := new_nm;
    new_qty := new_q;
    a_type := if is_new then Delete else Update
  |} in
  do _ <- _record_action action_data ;
  _update_drawer_in_db drawer_id new_nm new_q cabinet.

Definition undo : M bool :=
  fun st =>
    match pop (action_history st) with
    | None => (Ret false, st)
    | Some (action, rest) =>
        try_except
          (do _ <- match a_type action with
                   | Update => _update_drawer_in_db (a_id action) (prev_name action)
                                 (prev_qty action) (a_cabinet action)
                   | Delete => _update_drawer_in_db (a_id action) "" 0
                                 (a_cabinet action)
                   end ;
           do _ <- modify (fun s => set_redo_stack (append action (redo_stack s)) s) ;
           ret true)
          (fun _ => ret false)
          (set_action_history rest st)
    end.

Definition redo : M bool :=
  fun st =>
    match pop (redo_stack st) with
    | None => (Ret false, st)
    | Some (action, rest) =>
        try_except
          (do _ <- _update_drawer_in_db (a_id action) (new_name action)
                     (new_qty action) (a_cabinet action) ;
           do _ <- modify (fun s => set_action_history (append action (action_history s)) s) ;
           ret true)
          (fun _ => ret false)
          (set_redo_stack rest st)
    end.

(* ===================================================================== *)
(** ** app/utilities.py                                                   *)
(* ===================================================================== *)

(** [range(lo, hi)] *)
Definition range (lo hi : Z) : list Z :=
  map (fun i => lo + Z.of_nat i) (seq 0 (Z.to_nat (hi - lo))).

(** [f"{col}"] for the one-digit columns the loops produce. *)
Definition str_digit (col : Z) : string :=
  String (ascii_of_N (48 + Z.to_N col)) EmptyString.

(** [if key not in inventory: inventory[key] = {"name": "", "qty": 0}] *)
Definition fill_missing (inventory : PyDict.dict Drawer) (key : string)
  : PyDict.dict Drawer :=
  if PyDict.mem key inventory then inventory
  else PyDict.set key empty_drawer inventory.

Definition pad_inventory (inventory : PyDict.dict Drawer) : PyDict.dict Drawer :=
  let small :=
    fold_left (fun inv row =>
                 fold_left (fun inv col => fill_missing inv (row +:+ str_digit col))
                           (range 1 10) inv)
              ["A"; "B"; "C"; "D"] inventory in
  fold_left (fun inv row =>
               fold_left (fun inv col => fill_missing inv (row +:+ str_digit col))
                         (range 1 5) inv)
            ["E"; "F"; "G"] small.

Definition generate_all_drawer_keys : list string :=
  let keys := [] in
  let keys :=
    fold_left (fun keys row =>
                 keys ++ map (fun col => row +:+ str_digit col) (range 1 10))
              ["A"; "B"; "C"; "D"] keys in
  fold_left (fun keys row =>
               keys ++ map (fun col => row +:+ str_digit col) (range 1 5))
            ["E"; "F"; "G"] keys.

(* ===================================================================== *)
(** ** Record resolution: the bulk_update route of app/app.py             *)
(* ===================================================================== *)

(** [for x in l: body x] *)
Fixpoint for_each {A} (l : list A) (body : A -> M unit) : M unit :=
  match l with
  | [] => ret tt
  | x :: r => do _ <- body x ; for_each r body
  end.

(** [int(s)], raising ValueError *)
Definition py_int (s : string) : M Z :=
  match PyStr.int s with
  | Some z => ret z
  | None => raise ValueError
  end.

(** The order of [sorted] on strings: by code point, lexicographic. *)
Definition str_le (s1 s2 : string) : Prop := String.leb s1 s2 = true.

#[global] Instance str_le_dec s1 s2 : Decision (str_le s1 s2).
Proof. unfold str_le. apply _. Defined.

(** [sorted(l)] *)
Definition sorted (l : list string) : list string := merge_sort str_le l.

(** [sorted(list(set(all_keys) - used_keys))] with
    [used_keys = set(current_inventory.keys())] *)
Definition available_keys (current_inventory : PyDict.dict Drawer) : list string :=
  let all_keys := generate_all_drawer_keys in
  let used_keys : gset string := list_to_set (PyDict.keys current_inventory) in
  sorted (elements (list_to_set all_keys ∖ used_keys)).

(** [v.get('name', '').lower() == nm.lower()] *)
Definition name_matches (nm : string) (v : Drawer) : bool :=
  String.eqb (PyStr.lower (name v)) (PyStr.lower nm).

(** [p.strip() for p in line.split(',')] *)
Definition fields (line : string) : list string :=
  map PyStr.strip (PyStr.split "," line).

(** The body of the loop of [bulk_update] for one line; [inventory] is
    the padded map fetched before the loop.  Returning normally stands for
    going on with the next line, whichever way the body ends. *)
Definition bulk_update_line (cabinet : string) (inventory : PyDict.dict Drawer)
    (line : string) : M unit :=
  let parts := fields line in
  try_except
    (match parts with
     | [location; nm; q] =>
         do q <- py_int q ;
         if q =? 0 then update_drawer (PyStr.upper location) "" 0 cabinet
         else update_drawer (PyStr.upper location) (PyStr.strip nm) q cabinet
     | [first; second] =>
         if PyDict.mem (PyStr.upper first) inventory then
           let location := PyStr.upper first in
           do q <- py_int second ;
           if q =? 0 then update_drawer location "" 0 cabinet
           else
             match PyDict.get location inventory with
             | Some d => update_drawer location (name d) q cabinet
             | None => raise KeyError
             end
         else
           do q <- py_int second ;
           let nm := PyStr.strip first in
           let found := PyDict.first_key (name_matches nm) inventory in
           match found with
           | Some loc =>
               if negb (String.eqb loc "") then
                 if q =? 0 then update_drawer loc "" 0 cabinet
                 else update_drawer loc nm q cabinet
               else
                 do current_inventory <- get_inventory cabinet ;
                 match available_keys current_inventory with
                 | location :: _ => update_drawer location nm q cabinet
                 | [] => ret tt
                 end
           | None =>
               do current_inventory <- get_inventory cabinet ;
               match available_keys current_inventory with
               | location :: _ => update_drawer location nm q cabinet
               | [] => ret tt
               end
           end
     | _ => ret tt
     end)
    (fun _ => ret tt).

(** [bulk_update], given [text.splitlines()].  An input without a
    non-blank line is the case [not text.strip()]. *)
Definition bulk_update (cabinet : string) (text_lines : list string) : M unit :=
  let lines := List.filter (fun l => negb (String.eqb l ""))
                           (map PyStr.strip text_lines) in
  match lines with
  | [] => ret tt
  | _ =>
      do inventory <- try_except
                        (do inv <- get_inventory cabinet ; ret (pad_inventory inv))
                        (fun _ => ret []) ;
      for_each lines (bulk_update_line cabinet inventory)
  end.

(* ===================================================================== *)
(** ** app/import_manager.py                                              *)
(* ===================================================================== *)

(** The first attempt of [import_txt] on a stripped line: the shape
    "id: name (quantity)".  [None] when [drawer_id] is still None after
    it.  (A name assigned before [int] raised is not kept: every later
    path that uses [name] assigns it first.) *)
Definition parse_id_name_qty (line : string) : option (string * string * Z) :=
  if PyStr.contains ":" line && PyStr.contains "(" line && PyStr.contains ")" line
  then
    let parts := PyStr.split ":" line in
    let drawer_id_part := PyStr.upper (PyStr.strip (hd "" parts)) in
    let name_qty_part := PyStr.strip (PyStr.join ":" (tl parts)) in
    let name_start := PyStr.find "(" name_qty_part in
    let name_end := PyStr.rfind ")" name_qty_part in
    if negb (name_start =? -1) && negb (name_end =? -1) && (name_end >? name_start)
    then
      let nm := PyStr.strip (PyStr.take name_qty_part name_start) in
      match PyStr.int (PyStr.strip (PyStr.slice name_qty_part (name_start + 1) name_end)) with
      | Some q => Some (drawer_id_part, nm, q)
      | None => None
      end
    else None
  else None.

(** The second attempt: "id,name,quantity" or "name,quantity".  [None]
    stands for [continue]. *)
Definition parse_comma_separated (cabinet line : string)
  : M (option (string * string * Z)) :=
  let parts := fields line in
  try_except
    (match parts with
     | [p0; p1; p2] =>
         let drawer_id := PyStr.upper p0 in
         let nm := p1 in
         do q <- py_int p2 ;
         ret (Some (drawer_id, nm, q))
     | [p0; p1] =>
         let potential_name := p0 in
         do potential_qty <- py_int p1 ;
         do inv <- get_inventory cabinet ;
         if PyDict.mem (PyStr.upper potential_name) inv then
           let drawer_id := PyStr.upper potential_name in
           do d <- get_drawer drawer_id cabinet ;
           ret (Some (drawer_id, name d, potential_qty))
         else
           do current_inventory <- get_inventory cabinet ;
           let matched_id := PyDict.first_key (name_matches potential_name)
                                              current_inventory in
           let assign :=
             match available_keys current_inventory with
             | k :: _ => ret (Some (k, potential_name, potential_qty))
             | [] => ret None
             end in
           match matched_id with
           | Some k =>
               if negb (String.eqb k "")
               then ret (Some (k, potential_name, potential_qty))
               else assign
           | None => assign
           end
     | _ => ret None
     end)
    (fun e => match e with
              | ValueError => ret None
              | _ => raise e
              end).

(** The body of the loop of [import_txt] for one line. *)
Definition import_txt_line (cabinet raw : string) : M unit :=
  let line := PyStr.strip raw in
  if String.eqb line "" then ret tt
  else
    do resolved <- match parse_id_name_qty line with
                   | Some r => ret (Some r)
                   | None => parse_comma_separated cabinet line
                   end ;
    match resolved with
    | Some (drawer_id, nm, q) =>
        if negb (String.eqb drawer_id "")
        then update_drawer drawer_id nm q cabinet
        else ret tt
    | None => ret tt
    end.

(** [import_txt], given [content.splitlines()]. *)
Definition import_txt (cabinet : string) (lines : list string) : M bool :=
  try_except
    (do _ <- for_each lines (import_txt_line cabinet) ; ret true)
    (fun _ => ret false).

(** *** import_csv, given the rows that [csv.reader] yields *)

(** [l.index(x)], [None] standing for ValueError *)
Fixpoint index_of (x : string) (l : list string) : option Z :=
  match l with
  | [] => None
  | y :: r => if String.eqb y x then Some 0
              else option_map Z.succ (index_of x r)
  end.

(** [id_col, name_col, qty_col] after the header was read: the three
    assignments run in order until one raises ValueError. *)
Definition csv_columns (header : option (list string)) : Z * Z * Z :=
  match header with
  | None | Some [] => (-1, -1, -1)
  | Some h =>
      match index_of "ID" h with
      | None => (-1, -1, -1)
      | Some i =>
          match index_of "Name" h with
          | None => (i, -1, -1)
          | Some n =>
              match index_of "Quantity" h with
              | None => (i, n, -1)
              | Some q => (i, n, q)
              end
          end
      end
  end.

(** [row[i]] for an index in range *)
Definition item (row : list string) (i : Z) : string := nth (Z.to_nat i) row "".

(** The body of the loop of [import_csv] for one row. *)
Definition import_csv_row (cabinet : string) (id_col name_col qty_col : Z)
    (row : list string) : M unit :=
  match row with
  | [] => ret tt
  | _ =>
      let n := Z.of_nat (length row) in
      try_except
        (let drawer_id :=
           if negb (id_col =? -1) && (n >? id_col)
           then PyStr.upper (PyStr.strip (item row id_col))
           else PyStr.upper (PyStr.strip (item row 0)) in
         let nm :=
           if negb (name_col =? -1) && (n >? name_col)
           then PyStr.strip (item row name_col)
           else if n >? 1 then PyStr.strip (item row 1) else "" in
         do q <- (if negb (qty_col =? -1) && (n >? qty_col)
                  then py_int (PyStr.strip (item row qty_col))
                  else if n >? 2 then py_int (PyStr.strip (item row 2)) else ret 0) ;
         update_drawer drawer_id nm q cabinet)
        (fun e => match e with
                  | ValueError => ret tt
                  | _ => raise e
                  end)
  end.

Definition import_csv (cabinet : string) (rows : list (list string)) : M bool :=
  try_except
    (let header := hd_error rows in
     let '(id_col, name_col, qty_col) := csv_columns header in
     do _ <- for_each (tl rows) (import_csv_row cabinet id_col name_col qty_col) ;
     ret true)
    (fun _ => ret false).

(** *** import_json, for entries whose 'name' is a string and whose 'qty'
    is an integer or a string *)

Record JsonDetails := { j_name : option string; j_qty : option (Z + string) }.

(** The body of the loop of [import_json] for one item of the object. *)
Definition import_json_entry (cabinet drawer_id : string) (details : JsonDetails)
  : M unit :=
  try_except
    (let nm := PyStr.strip (default "" (j_name details)) in
     do q <- match j_qty details with
             | None => ret 0
             | Some (inl z) => ret z
             | Some (inr s) => py_int s
             end ;
     update_drawer (PyStr.upper drawer_id) nm q cabinet)
    (fun e => match e with
              | ValueError => ret tt
              | _ => raise e
              end).

Definition import_json (cabinet : string) (data : list (string * JsonDetails)) : M bool :=
  try_except
    (do _ <- for_each data (fun '(drawer_id, details) =>
                              import_json_entry cabinet drawer_id details) ;
     ret true)
    (fun _ => ret false).

(** *** import_excel, for rows whose cells are given by [str(row['ID'])],
    [str(row['Name'])] and the integer [int(row['Quantity'])] *)

Definition import_excel_row (cabinet id_cell name_cell : string) (quantity : Z) : M unit :=
  let drawer_id := PyStr.upper (PyStr.strip id_cell) in
  let nm := PyStr.strip name_cell in
  let nm := if String.eqb (PyStr.lower nm) "nan" then "" else nm in
  update_drawer drawer_id nm quantity cabinet.

Definition import_excel (cabinet : string) (rows : list (string * string * Z)) : M bool :=
  try_except
    (do _ <- for_each rows (fun '(id_cell, name_cell, quantity) =>
                              import_excel_row cabinet id_cell name_cell quantity) ;
     ret true)
    (fun _ => ret false).

(** *** Pure readings of the store, used to state the properties *)

(** What [get_drawer] answers when sqlite does not raise. *)
Definition drawer_at (t : Table) (drawer_id cabinet : string) : Drawer :=
  if invalid_id drawer_id then empty_drawer
  else match t !! (cabinet, PyStr.upper (PyStr.head drawer_id), PyStr.tail drawer_id) with
       | Some r => drawer_of_row r
       | None => empty_drawer
       end.

(** The table after the upsert of [_update_drawer_in_db]. *)
Definition upsert (drawer_id nm : string) (q : Z) (cabinet : string) (t : Table) : Table :=
  if invalid_id drawer_id then t
  else <[(cabinet, PyStr.upper (PyStr.head drawer_id), PyStr.tail drawer_id) :=
           {| col_name := Some nm; col_qty := Some q |}]> t.

(** The action [update_drawer] records when the drawer reads as [old]. *)
Definition action_for (old : Drawer) (drawer_id new_nm : string) (new_q : Z)
    (cabinet : string) : Action :=
  {| a_id := drawer_id; a_cabinet := cabinet;
     prev_name := name old; prev_qty := qty old;
     new_name := new_nm; new_qty := new_q;
     a_type := if String.eqb (name old) "" && (qty old =? 0) then Delete else Update |}.

(** No sqlite fault is scheduled. *)
Definition healthy (st : Manager) : Prop := sqlite_faults st = [].

(** Two tables that every [get_drawer] reads alike. *)
Definition same_view (t t' : Table) : Prop :=
  forall drawer_id cabinet, drawer_at t drawer_id cabinet = drawer_at t' drawer_id cabinet.

(** A write request [(drawer_id, name, qty, cabinet)] and drivers that
    issue calls in sequence. *)
Definition Write : Type := string * string * Z * string.

Fixpoint update_all (ws : list Write) : M unit :=
  match ws with
  | [] => ret tt
  | (drawer_id, nm, q, cabinet) :: r =>
      do _ <- update_drawer drawer_id nm q cabinet ;
      update_all r
  end.

(** [n] calls of [m], answering whether every call answered [True]. *)
Fixpoint times (n : nat) (m : M bool) : M bool :=
  match n with
  | O => ret true
  | S k => do b <- m ; do bs <- times k m ; ret (b && bs)
  end.

(** *** Further readings and examples used to state the properties *)

(** The values [undo] writes for an action: those of before the write,
    whichever its type. *)
Definition undo_table (a : Action) (t : Table) : Table :=
  match a_type a with
  | Update => upsert (a_id a) (prev_name a) (prev_qty a) (a_cabinet a) t
  | Delete => upsert (a_id a) "" 0 (a_cabinet a) t
  end.

Definition redo_table (a : Action) (t : Table) : Table :=
  upsert (a_id a) (new_name a) (new_qty a) (a_cabinet a) t.

(** The actions a run of writes records and the table it leaves. *)
Fixpoint actions_of (ws : list Write) (t : Table) : list Action :=
  match ws with
  | [] => []
  | (drawer_id, nm, q, cabinet) :: r =>
      action_for (drawer_at t drawer_id cabinet) drawer_id nm q cabinet
      :: actions_of r (upsert drawer_id nm q cabinet t)
  end.

Fixpoint table_after (ws : list Write) (t : Table) : Table :=
  match ws with
  | [] => t
  | (drawer_id, nm, q, cabinet) :: r => table_after r (upsert drawer_id nm q cabinet t)
  end.

Definition undo_all (acts : list Action) (t : Table) : Table :=
  fold_left (fun t a => undo_table a t) (rev acts) t.

Definition redo_all (acts : list Action) (t : Table) : Table :=
  fold_left (fun t a => redo_table a t) acts t.

(** *** Stores and inputs used in the examples *)

(** Cabinet Default holds Bolts in B3. *)
Definition demo_store : Manager :=
  {| db := {[ ("Default", "B", "3") := {| col_name := Some "Bolts"; col_qty := Some 2 |} ]};
     action_history := []; redo_stack := []; sqlite_faults := [] |}.

(** A store whose next read answers and whose next write raises. *)
Definition failing_write_store : Manager := set_sqlite_faults [false; true] demo_store.

Definition demo_inventory : PyDict.dict Drawer :=
  [("B3", {| name := "Bolts"; qty := 2 |}); ("Z9", {| name := "Odd"; qty := 1 |})].

(** What [get_inventory] answers when sqlite does not raise. *)
Definition inventory_of (cabinet : string) (t : Table) : PyDict.dict Drawer :=
  fold_left
    (fun inventory '(row, column, nm, q) =>
       PyDict.set (PyStr.upper (row +:+ column))
                  {| name := or_empty nm; qty := or_zero q |} inventory)
    (select_cabinet cabinet t) [].

(** Stored identifiers are uppercase-normalized: the row is one character,
    row and column are fixed by [upper], the column is not empty. *)
Definition normalized (t : Table) : Prop :=
  forall cabinet row column r,
    t !! (cabinet, row, column) = Some r ->
    String.length row = 1%nat /\ PyStr.upper row = row /\
    PyStr.upper column = column /\ column <> "".

(** One step of the loop that builds a dict from fetched rows:
    [d[key(e)] = val(e)]. *)
Definition set_entry {A V : Type} (key : A -> string) (val : A -> V)
    (d : PyDict.dict V) (e : A) : PyDict.dict V :=
  PyDict.set (key e) (val e) d.

Definition entry_key (e : string * string * option string * option Z) : string :=
  PyStr.upper (e.1.1.1 +:+ e.1.1.2).
Definition entry_val (e : string * string * option string * option Z) : Drawer :=
  {| name := or_empty e.1.2; qty := or_zero e.2 |}.



(** [get_drawer] answers [d] for the drawer, leaving the state as it is. *)
Definition reads (st : Manager) (drawer_id cabinet : string) (d : Drawer) : Prop :=
  get_drawer drawer_id cabinet st = (Ret d, st).

(** [str(n)] for a Python int *)
Definition str_of_int (n : Z) : string := NilZero.string_of_int (Z.to_int n).

(** One line of [export_txt] (app/export_manager.py):
    [f"{key}: {val.get('name', '')} ({val.get('qty', 0)})"] *)
Definition export_txt_line (key : string) (val : Drawer) : string :=
  key +:+ ": " +:+ name val +:+ " (" +:+ str_of_int (qty val) +:+ ")".

(** The first attempt of [import_txt] as the specification words it: the
    drawer id is what precedes the first ':', the quantity is taken from
    the last '(' ... ')' pair of the remainder, the name is the text before
    that pair. *)
Definition parse_id_name_qty_spec (line : string) : option (string * string * Z) :=
  if PyStr.contains ":" line && PyStr.contains "(" line && PyStr.contains ")" line
  then
    let parts := PyStr.split ":" line in
    let drawer_id_part := PyStr.upper (PyStr.strip (hd "" parts)) in
    let remainder := PyStr.strip (PyStr.join ":" (tl parts)) in
    let close := PyStr.rfind ")" remainder in
    let open := PyStr.rfind "(" (PyStr.take remainder close) in
    if negb (open =? -1) && negb (close =? -1)
    then
      match PyStr.int (PyStr.strip (PyStr.slice remainder (open + 1) close)) with
      | Some q => Some (drawer_id_part, PyStr.strip (PyStr.take remainder open), q)
      | None => None
      end
    else None
  else None.

(* ===================================================================== *)
(** ** app/inventory_manager.py: clearing the table, listing the cabinets *)
(* ===================================================================== *)

(** [DELETE FROM drawers]; a failure is logged and raised again.  The
    two history lists are not touched. *)
Definition clear_inventory : M unit :=
  try_except (sqlite_exec (fun _ => ∅)) (fun e => raise e).

(** The values [SELECT DISTINCT cabinet FROM drawers] fetches.  SQL does
    not fix their order. *)
Definition select_distinct_cabinets (t : Table) : list string :=
  elements (list_to_set (map (fun e => e.1.1.1) (map_to_list t)) : gset string).

Definition get_all_cabinets : M (list string) :=
  try_except
    (do results <- sqlite_query select_distinct_cabinets ;
     ret (sorted (List.filter (fun c => negb (String.eqb c "")) results)))
    (fun _ => ret []).

(* ===================================================================== *)
(** ** app/export_manager.py                                              *)
(* ===================================================================== *)

(** What the export methods put in the file, before the file format
    encodes it; [None] stands for the response with status 500. *)

(** The rows handed to [csv.writer]; the writer prints a quantity as
    [str] does. *)
Definition export_csv (cabinet : string) : M (option (list (list string))) :=
  try_except
    (do inv <- get_inventory cabinet ;
     let inventory := pad_inventory inv in
     ret (Some (["ID"; "Name"; "Quantity"]
                :: map (fun '(key, value) => [key; name value; str_of_int (qty value)])
                       inventory)))
    (fun _ => ret None).

(** The object handed to [json.dumps], as [json.load] reads it back. *)
Definition export_json (cabinet : string) : M (option (list (string * JsonDetails))) :=
  try_except
    (do inv <- get_inventory cabinet ;
     let inventory := pad_inventory inv in
     ret (Some (map (fun '(key, value) =>
                       (key, {| j_name := Some (name value);
                                j_qty := Some (inl (qty value)) |}))
                    inventory)))
    (fun _ => ret None).



(* ===================================================================== *)
(** ** Routes of app/app.py                                               *)
(* ===================================================================== *)

(** A response is its status code. *)
Module App.

(** The route /clear. *)
Definition clear : M Z :=
  try_except (do _ <- clear_inventory ; ret 302) (fun _ => ret 500).

(** A JSON value, as [request.get_json()] hands it over.  A float is
    given by its exact value [num / den], or is an infinity or a NaN. *)
Inductive PyFloat :=
| Finite (num : Z) (den : positive)
| Infinity
| NotANumber.

#[local] Unset Elimination Schemes.
Inductive Json :=
| JNull
| JBool (b : bool)
| JInt (z : Z)
| JFloat (x : PyFloat)
| JStr (s : string)
| JArray (items : list Json)
| JObject (members : list (string * Json)).
#[local] Set Elimination Schemes.

(** What [int(x)] does with a JSON value: the integer, or the exception
    it raises. *)
Inductive IntResult :=
| IntOk (z : Z)
| IntValueError
| IntTypeError
| IntOverflowError.

Definition int_of_json (x : Json) : IntResult :=
  match x with
  | JInt z => IntOk z
  | JBool b => IntOk (if b then 1 else 0)
  | JFloat (Finite num den) => IntOk (Z.quot num (Z.pos den))
  | JFloat Infinity => IntOverflowError
  | JFloat NotANumber => IntValueError
  | JStr s => match PyStr.int_limited s with
              | Some z => IntOk z
              | None => IntValueError
              end
  | JNull | JArray _ | JObject _ => IntTypeError
  end.

(** The members of a JSON object that the route /update reads.  'id' and
    'cabinet', where present, are strings (an 'id' that is null counts as
    absent); 'name' and 'qty' are any JSON value. *)
Record UpdateData := {
  u_id : option string;
  u_name : option Json;
  u_qty : option Json;
  u_cabinet : option string
}.

(** The body of a request to /update, as [get_json] hands it over: a JSON
    object, or another JSON value, of which only the truth value matters
    (null, false, 0, the empty string and the empty array are not true;
    the empty object is the object without members). *)
Inductive Body :=
| NotAnObject (truthy : bool)
| Object (data : UpdateData).

(** The route /update.  An exception that the route does not catch is
    answered with status 500. *)
Definition update (body : Body) : M Z :=
  match body with
  | NotAnObject false => ret 400
  | NotAnObject true => ret 500
  | Object data =>
      match int_of_json (default (JInt (-1)) (u_qty data)) with
      | IntValueError | IntTypeError => ret 400
      | IntOverflowError => ret 500
      | IntOk qty =>
          if qty <? 0 then ret 400
          else
            let drawer_id := default "" (u_id data) in
            match default (JStr "") (u_name data) with
            | JStr nm =>
                let nm := PyStr.strip nm in
                let cabinet := default "Default" (u_cabinet data) in
                if String.eqb drawer_id "" then ret 400
                else
                  try_except
                    (do _ <- update_drawer drawer_id nm qty cabinet ; ret 200)
                    (fun _ => ret 500)
            | _ => ret 500
            end
      end
  end.

(** [query in key.lower() or query in (value.get('name') or '').lower()
     or query in str(value.get('qty', ''))] *)
Definition matches (query key : string) (value : Drawer) : bool :=
  PyStr.is_in query (PyStr.lower key)
  || PyStr.is_in query (PyStr.lower (name value))
  || PyStr.is_in query (str_of_int (qty value)).

(** The route /search: the map handed to the template. *)
Definition search (cabinet q : string) : M (PyDict.dict Drawer) :=
  let query := PyStr.lower q in
  do full_inventory <- try_except
                         (do inv <- get_inventory cabinet ; ret (pad_inventory inv))
                         (fun _ => ret []) ;
  ret (fold_left
         (fun filtered_inventory '(key, value) =>
            if matches query key value
            then PyDict.set key value filtered_inventory
            else filtered_inventory)
         full_inventory []).

End App.

(* ===================================================================== *)
(** ** Routes of app/api_routes.py                                        *)
(* ===================================================================== *)

Module Api.

(** [validate_int(val, name)] for a value that is an integer or a string *)
Definition validate_int (val : Z + string) : M Z :=
  match val with
  | inl z => ret z
  | inr s => py_int s
  end.

(** [chr(row)]: ValueError outside the code points.  Rows above 127 are
    not in the range of the strings modelled here. *)
Definition py_chr (row : Z) : M string :=
  if (row <? 0) || (1114111 <? row) then raise ValueError else ret (PyStr.chr row).

(** What the three routes do with an exception. *)
Definition status_of (e : exn) : M Z :=
  match e with
  | ValueError => ret 400
  | _ => ret 500
  end.



(** PUT /api/cabinets/<cabinet_name>/drawers/<int:row>_<int:col> *)
Definition update_drawer (cabinet_name : string) (row col : Z)
    (nm : option string) (quantity : option (Z + string)) : M Z :=
  try_except
    (let nm := default "" nm in
     let quantity := default (inl 0) quantity in
     do quantity <- validate_int quantity ;
     do r <- py_chr row ;
     do _ <- update_drawer (r +:+ str_of_int col) nm quantity "Default" ;
     ret 200)
    status_of.

End Api.

(** *** Readings used to state the further properties *)

(** The primary key of the row that [drawer_id] names in [cabinet]. *)
Definition slot (drawer_id cabinet : string) : string * string * string :=
  (cabinet, PyStr.upper (PyStr.head drawer_id), PyStr.tail drawer_id).

(** The drawer an undone action leaves behind. *)
Definition undone (a : Action) : Drawer :=
  match a_type a with
  | Update => {| name := prev_name a; qty := prev_qty a |}
  | Delete => empty_drawer
  end.

Definition sample_action : Action :=
  {| a_id := "B3"; a_cabinet := "Default"; prev_name := "Bolts"; prev_qty := 2;
     new_name := "Nuts"; new_qty := 7; a_type := Update |}.

(** No character of [s] is white space. *)
Definition no_space (s : string) : bool :=
  negb (existsb PyStr.is_space (list_ascii_of_string s)).

(** The entries an import puts back where an export found them: the key
    names a drawer and is what [upper] and [strip] make of it, the name is
    what [strip] makes of it. *)
Definition json_safe (e : string * Drawer) : bool :=
  negb (invalid_id e.1) && String.eqb (PyStr.upper e.1) e.1
  && String.eqb (PyStr.strip (name e.2)) (name e.2).
Definition csv_safe (e : string * Drawer) : bool :=
  json_safe e && String.eqb (PyStr.strip e.1) e.1.

(** The call [update_drawer(key, name, qty, cabinet)] for an entry. *)
Definition write_of (cabinet : string) (e : string * Drawer) : Write :=
  (e.1, name e.2, qty e.2, cabinet).

Definition slot_of (w : Write) : string * string * string := slot w.1.1.1 w.2.

(** The integers that the INTEGER column of sqlite takes (64 bits,
    signed); given another, sqlite3 raises OverflowError.  The table of
    this development stores any integer, so what is said of a stored
    quantity is said of the quantities sqlite takes. *)
Definition sqlite_integer (q : Z) : bool := (- 2 ^ 63 <=? q) && (q <? 2 ^ 63).

Definition sample_request : App.UpdateData :=
  {| App.u_id := Some "A1"; App.u_name := Some (App.JStr " Nuts ");
     App.u_qty := Some (App.JStr "7"); App.u_cabinet := None |}.

(** A line without two or three comma-separated fields, or whose last
    field [int] rejects. *)
Definition malformed_fields (line : string) : bool :=
  match fields line with
  | [_; _; q] | [_; q] =>
      match PyStr.int q with
      | None => true
      | Some _ => false
      end
  | _ => true
  end.

(** The non-blank lines [bulk_update] loops over. *)
Definition nonblank (text_lines : list string) : list string :=
  List.filter (fun l => negb (String.eqb l "")) (map PyStr.strip text_lines).


(** Two drawers of one name, C5 and A1. *)
Definition two_nuts_store : Manager :=
  {| db := <[ ("Default", "A", "1") := {| col_name := Some "Nuts"; col_qty := Some 2 |} ]>
             {[ ("Default", "C", "5") := {| col_name := Some "Nuts"; col_qty := Some 1 |} ]};
     action_history := []; redo_stack := []; sqlite_faults := [] |}.



(* ===================================================================== *)
(** * Properties                                                          *)
(* ===================================================================== *)

(** ** The string operations on sample inputs *)

Example split_keeps_empty_parts :
  PyStr.split "," "a, b,,c" = ["a"; " b"; ""; "c"] /\ PyStr.split "," "" = [""].
Proof. split; reflexivity. Qed.

Example strip_both_ends : PyStr.strip "  a b  " = "a b" /\ PyStr.strip "   " = "".
Proof. split; reflexivity. Qed.

Example int_accepts :
  PyStr.int " -1_0 " = Some (-10) /\ PyStr.int "+7" = Some 7 /\ PyStr.int "007" = Some 7.
Proof. repeat split; reflexivity. Qed.

Example int_rejects :
  PyStr.int "" = None /\ PyStr.int "1__0" = None /\ PyStr.int "5_" = None /\
  PyStr.int "- 5" = None /\ PyStr.int "notanumber" = None /\ PyStr.int "10k) (5" = None.
Proof. repeat split; reflexivity. Qed.

Example find_first_rfind_last :
  PyStr.find "(" "ab(c(" = 2 /\ PyStr.rfind "(" "ab(c(" = 4 /\ PyStr.find "(" "abc" = -1.
Proof. repeat split; reflexivity. Qed.

Example upper_lower_ascii :
  PyStr.upper "a1z{`" = "A1Z{`" /\ PyStr.lower "Bolts M3" = "bolts m3".
Proof. split; reflexivity. Qed.

Example dict_set_keeps_position :
  PyDict.set "a" 2 [("a", 1); ("b", 1)] = [("a", 2); ("b", 1)] /\
  PyDict.set "c" 2 [("a", 1); ("b", 1)] = [("a", 1); ("b", 1); ("c", 2)].
Proof. split; reflexivity. Qed.

(** ** History engine *)

Section History.

Lemma pop_append {A} (l : list A) (x : A) : pop (append x l) = Some (x, l).
Proof.
  unfold pop, append. rewrite rev_app_distr. simpl. now rewrite rev_involutive.
Qed.

Lemma next_fault_healthy st : healthy st -> next_fault st = (false, st).
Proof. unfold healthy, next_fault. now intros ->. Qed.

Lemma get_drawer_healthy drawer_id cabinet st :
  healthy st ->
  get_drawer drawer_id cabinet st = (Ret (drawer_at (db st) drawer_id cabinet), st).
Proof.
  intros H. unfold get_drawer, drawer_at.
  destruct (invalid_id drawer_id); [reflexivity|].
  unfold try_except, bind, sqlite_query. rewrite (next_fault_healthy _ H).
  now destruct (db st !! _).
Qed.

Lemma write_healthy drawer_id nm q cabinet st :
  healthy st ->
  _update_drawer_in_db drawer_id nm q cabinet st
  = (Ret tt, set_db (upsert drawer_id nm q cabinet (db st)) st).
Proof.
  intros H. unfold _update_drawer_in_db, upsert.
  destruct (invalid_id drawer_id).
  - now destruct st.
  - unfold sqlite_exec. now rewrite (next_fault_healthy _ H).
Qed.

(** [update_drawer] is: read, record, then write on the state that
    already holds the record. *)
Lemma update_drawer_unfold drawer_id nm q cabinet st :
  update_drawer drawer_id nm q cabinet st
  = let '(_, st1) := get_drawer drawer_id cabinet st in
    let old := match fst (get_drawer drawer_id cabinet st) with
               | Ret d => d | Raise _ => empty_drawer end in
    _update_drawer_in_db drawer_id nm q cabinet
      (set_redo_stack []
         (set_action_history
            (append (action_for old drawer_id nm q cabinet) (action_history st1)) st1)).
Proof.
  unfold update_drawer, bind at 1.
  assert (Hret : exists d st1, get_drawer drawer_id cabinet st = (Ret d, st1)).
  { unfold get_drawer. destruct (invalid_id drawer_id); [eexists _, _; reflexivity|].
    unfold try_except, bind, sqlite_query.
    destruct (next_fault st) as [[] st']; simpl; [eexists _, _; reflexivity|].
    destruct (db st' !! _); eexists _, _; reflexivity. }
  destruct Hret as (d & st1 & ->). reflexivity.
Qed.

Lemma update_drawer_healthy drawer_id nm q cabinet st :
  healthy st ->
  update_drawer drawer_id nm q cabinet st
  = (Ret tt,
     set_db (upsert drawer_id nm q cabinet (db st))
       (set_redo_stack []
          (set_action_history
             (append (action_for (drawer_at (db st) drawer_id cabinet)
                                 drawer_id nm q cabinet)
                     (action_history st)) st))).
Proof.
  intros H. rewrite update_drawer_unfold, (get_drawer_healthy _ _ _ H). simpl.
  now rewrite write_healthy.
Qed.

Lemma drawer_at_upsert_same drawer_id nm q cabinet t :
  invalid_id drawer_id = false ->
  drawer_at (upsert drawer_id nm q cabinet t) drawer_id cabinet = {| name := nm; qty := q |}.
Proof.
  intros H. unfold drawer_at, upsert. rewrite H. now rewrite lookup_insert_eq.
Qed.

Lemma same_view_refl t : same_view t t.
Proof. now intros ? ?. Qed.

Lemma same_view_trans t1 t2 t3 : same_view t1 t2 -> same_view t2 t3 -> same_view t1 t3.
Proof. intros H1 H2 ? ?. now rewrite H1, H2. Qed.

(** A write acts on the views alone. *)
Lemma upsert_same_view drawer_id nm q cabinet t t' :
  same_view t t' ->
  same_view (upsert drawer_id nm q cabinet t) (upsert drawer_id nm q cabinet t').
Proof.
  intros H i c. specialize (H i c). revert H. unfold drawer_at, upsert.
  destruct (invalid_id i); [reflexivity|].
  destruct (invalid_id drawer_id); [tauto|].
  rewrite !lookup_insert. now case_decide.
Qed.

(** Writing back what a drawer held before a write cancels that write,
    as far as any read can tell. *)
Lemma upsert_restore drawer_id nm q cabinet t :
  let old := drawer_at t drawer_id cabinet in
  same_view (upsert drawer_id (name old) (qty old) cabinet (upsert drawer_id nm q cabinet t)) t.
Proof.
  intros old i c. subst old. unfold drawer_at, upsert.
  destruct (invalid_id i); [reflexivity|].
  destruct (invalid_id drawer_id); [reflexivity|].
  rewrite !lookup_insert. case_decide as E; [|reflexivity].
  rewrite <- E. now destruct (t !! _) as [[[?|] [?|]]|].
Qed.

Lemma undo_healthy st h a :
  healthy st -> action_history st = append a h ->
  undo st = (Ret true,
             set_redo_stack (append a (redo_stack st))
               (set_db (undo_table a (db st)) (set_action_history h st))).
Proof.
  intros H E. unfold undo. rewrite E, pop_append.
  unfold try_except, bind at 1, undo_table.
  destruct (a_type a);
    (rewrite write_healthy; [reflexivity | exact H]).
Qed.

Lemma redo_healthy st r a :
  healthy st -> redo_stack st = append a r ->
  redo st = (Ret true,
             set_action_history (append a (action_history st))
               (set_db (redo_table a (db st)) (set_redo_stack r st))).
Proof.
  intros H E. unfold redo. rewrite E, pop_append.
  unfold try_except, bind at 1, redo_table.
  rewrite write_healthy; [reflexivity | exact H].
Qed.

Lemma undo_table_action_for old drawer_id nm q cabinet t :
  undo_table (action_for old drawer_id nm q cabinet) t
  = upsert drawer_id (name old) (qty old) cabinet t.
Proof.
  unfold undo_table, action_for. simpl.
  destruct (String.eqb_spec (name old) "") as [En|]; [|reflexivity].
  destruct (Z.eqb_spec (qty old) 0) as [Eq|]; [|reflexivity].
  simpl. now rewrite En, Eq.
Qed.

Lemma manager_eq st t h r f :
  db st = t -> action_history st = h -> redo_stack st = r -> sqlite_faults st = f ->
  st = {| db := t; action_history := h; redo_stack := r; sqlite_faults := f |}.
Proof. destruct st; simpl; congruence. Qed.

Lemma length_actions_of ws t : length (actions_of ws t) = length ws.
Proof.
  revert t. induction ws as [|[[[i n] q] c] r IH]; intros t; simpl; [reflexivity|].
  now rewrite IH.
Qed.

Lemma update_all_healthy ws st :
  healthy st ->
  update_all ws st
  = (Ret tt,
     {| db := table_after ws (db st);
        action_history := action_history st ++ actions_of ws (db st);
        redo_stack := match ws with [] => redo_stack st | _ => [] end;
        sqlite_faults := [] |}).
Proof.
  revert st. induction ws as [|[[[i n] q] c] r IH]; intros st H.
  - simpl. unfold ret. f_equal. apply manager_eq; auto using app_nil_r.
  - simpl. unfold bind. rewrite (update_drawer_healthy _ _ _ _ _ H).
    rewrite IH by exact H. simpl. f_equal. f_equal.
    + unfold append. now rewrite <- app_assoc.
    + now destruct r.
Qed.

Lemma times_undo_healthy acts : forall st h,
  healthy st -> action_history st = h ++ acts ->
  times (length acts) undo st
  = (Ret true,
     {| db := undo_all acts (db st); action_history := h;
        redo_stack := redo_stack st ++ rev acts; sqlite_faults := [] |}).
Proof.
  induction acts as [|a acts IH] using rev_ind; intros st h H E.
  - simpl. unfold ret. f_equal. rewrite app_nil_r in *. now apply manager_eq.
  - rewrite length_app, Nat.add_comm. simpl.
    rewrite app_assoc in E.
    unfold bind at 1. rewrite (undo_healthy st (h ++ acts) a H E).
    unfold bind at 1. rewrite (IH _ h) by (exact H || reflexivity).
    simpl. unfold ret. f_equal. f_equal.
    + unfold undo_all. now rewrite rev_app_distr.
    + rewrite rev_app_distr. unfold append. now rewrite <- app_assoc.
Qed.

Lemma times_redo_healthy acts : forall st r,
  healthy st -> redo_stack st = r ++ rev acts ->
  times (length acts) redo st
  = (Ret true,
     {| db := redo_all acts (db st); action_history := action_history st ++ acts;
        redo_stack := r; sqlite_faults := [] |}).
Proof.
  induction acts as [|a acts IH]; intros st r H E.
  - simpl in *. unfold ret. f_equal. rewrite app_nil_r in *. now apply manager_eq.
  - simpl in *. rewrite app_assoc in E.
    unfold bind at 1. rewrite (redo_healthy st (r ++ rev acts) a H E).
    unfold bind at 1. rewrite (IH _ r) by (exact H || reflexivity).
    simpl. unfold ret. f_equal. f_equal.
    unfold append. now rewrite <- app_assoc.
Qed.

Lemma undo_all_cons a acts t : undo_all (a :: acts) t = undo_table a (undo_all acts t).
Proof. unfold undo_all. simpl. now rewrite fold_left_app. Qed.

(** Undoing the recorded actions, last first, leads back to the views of
    before the first write. *)
Lemma undo_all_view ws : forall t t',
  same_view t' (table_after ws t) ->
  same_view (undo_all (actions_of ws t) t') t.
Proof.
  induction ws as [|[[[i n] q] c] r IH]; intros t t' H; [exact H|].
  simpl. rewrite undo_all_cons, undo_table_action_for.
  eapply same_view_trans.
  - apply upsert_same_view. apply IH. exact H.
  - apply upsert_restore.
Qed.

(** Redoing them, first first, leads to the views of after the last write. *)
Lemma redo_all_view ws : forall t t',
  same_view t' t ->
  same_view (redo_all (actions_of ws t) t') (table_after ws t).
Proof.
  induction ws as [|[[[i n] q] c] r IH]; intros t t' H; [exact H|].
  simpl. apply IH. unfold redo_table. simpl. now apply upsert_same_view.
Qed.

End History.

(** C1.  Undo/redo inverse law.  Start from any store with an empty
    history and a database that answers.  Any [n] calls of [update_drawer]
    all return normally; [n] calls of [undo] then all answer [True] and
    leave every drawer (touched or not), as [get_drawer] reads it, as it
    was before the first write; [n] calls of [redo] after that all answer
    [True] and leave every drawer as it was after the last write. *)
Theorem undo_redo_inverse_law (ws : list Write) (st0 : Manager) :
  action_history st0 = [] ->
  healthy st0 ->
  exists st1 st2 st3,
    update_all ws st0 = (Ret tt, st1) /\
    times (length ws) undo st1 = (Ret true, st2) /\
    times (length ws) redo st2 = (Ret true, st3) /\
    (forall drawer_id cabinet,
        fst (get_drawer drawer_id cabinet st2) = fst (get_drawer drawer_id cabinet st0)) /\
    (forall drawer_id cabinet,
        fst (get_drawer drawer_id cabinet st3) = fst (get_drawer drawer_id cabinet st1)) /\
    action_history st2 = [] /\
    action_history st3 = action_history st1.
Proof.
  intros Hh H.
  eexists _, _, _. split; [apply update_all_healthy; exact H|].
  rewrite Hh. simpl.
  rewrite <- (length_actions_of ws (db st0)).
  split; [apply (times_undo_healthy _ _ []); reflexivity|].
  split; [apply (times_redo_healthy _ _ (match ws with [] => redo_stack st0 | _ => [] end));
          reflexivity|].
  repeat split.
  - intros i c. rewrite !get_drawer_healthy by (exact H || reflexivity). simpl.
    f_equal. apply undo_all_view, same_view_refl.
  - intros i c. rewrite !get_drawer_healthy by (exact H || reflexivity). simpl.
    f_equal. apply redo_all_view, undo_all_view, same_view_refl.
Qed.

Lemma write_frame drawer_id nm q cabinet st :
  let r := _update_drawer_in_db drawer_id nm q cabinet st in
  action_history (snd r) = action_history st /\
  redo_stack (snd r) = redo_stack st /\
  (forall e, fst r = Raise e -> db (snd r) = db st).
Proof.
  unfold _update_drawer_in_db. destruct (invalid_id drawer_id); simpl.
  - repeat split; discriminate.
  - unfold sqlite_exec, next_fault.
    destruct (sqlite_faults st) as [|[] fs]; simpl; repeat split; discriminate.
Qed.

Lemma invalid_id_short drawer_id :
  (String.length drawer_id < 2)%nat -> invalid_id drawer_id = true.
Proof.
  intros H. unfold invalid_id, PyStr.len. apply orb_true_iff. right.
  apply Z.ltb_lt. lia.
Qed.

Lemma empty_drawer_dec (d : Drawer) :
  String.eqb (name d) "" && (qty d =? 0) = true <-> d = empty_drawer.
Proof.
  destruct d as [n q]. unfold empty_drawer. simpl. rewrite andb_true_iff.
  rewrite String.eqb_eq, Z.eqb_eq. split; [intros [-> ->]; reflexivity|].
  intros E; inversion E; auto.
Qed.

Lemma undo_redo_inverse_law_witness :
  let ws := [("A1", "Widget", 5, "Default"); ("b3", "Nuts", 0, "Default");
             ("A1", "Gadget", 7, "Default")] in
  exists st1 st2 st3,
    update_all ws demo_store = (Ret tt, st1) /\
    times (length ws) undo st1 = (Ret true, st2) /\
    times (length ws) redo st2 = (Ret true, st3) /\
    (forall drawer_id cabinet,
        fst (get_drawer drawer_id cabinet st2)
        = fst (get_drawer drawer_id cabinet demo_store)) /\
    (forall drawer_id cabinet,
        fst (get_drawer drawer_id cabinet st3) = fst (get_drawer drawer_id cabinet st1)) /\
    action_history st2 = [] /\
    action_history st3 = action_history st1.
Proof.
  intros ws. apply (undo_redo_inverse_law ws demo_store); reflexivity.
Defined.

(** C5.  Redo invalidation.  Whatever the store, after [undo()] a call of
    [update_drawer] (whether or not its write succeeds) leaves the redo
    stack empty, so [redo()] answers [False] and changes nothing: the
    undone action is not applied again. *)
Theorem redo_invalidated_by_new_update (st : Manager) drawer_id nm q cabinet :
  let st1 := snd (undo st) in
  let st2 := snd (update_drawer drawer_id nm q cabinet st1) in
  redo_stack st2 = [] /\ redo st2 = (Ret false, st2).
Proof.
  intros st1 st2.
  assert (E : redo_stack st2 = []).
  { subst st2. rewrite update_drawer_unfold.
    destruct (get_drawer drawer_id cabinet st1) as [o s1]. simpl.
    now rewrite (proj1 (proj2 (write_frame _ _ _ _ _))). }
  split; [exact E|]. unfold redo. now rewrite E.
Qed.

(** C6.  Create-vs-Update classification.  With a database that answers,
    [update_drawer] on a drawer that reads as [old] returns normally and
    appends one action: of type 'delete' (kind Create) when [old] is
    exactly the empty drawer, of type 'update' with the previous name and
    quantity otherwise.  The next [undo()] answers [True] and the drawer
    reads as [old] again: the empty drawer in the first case, the previous
    name and quantity in the second. *)
Theorem create_vs_update_classification drawer_id nm q cabinet (st : Manager) :
  healthy st ->
  exists old a st1 st2,
    get_drawer drawer_id cabinet st = (Ret old, st) /\
    update_drawer drawer_id nm q cabinet st = (Ret tt, st1) /\
    action_history st1 = append a (action_history st) /\
    (old = empty_drawer -> a_type a = Delete) /\
    (old <> empty_drawer ->
     a_type a = Update /\ prev_name a = name old /\ prev_qty a = qty old) /\
    undo st1 = (Ret true, st2) /\
    get_drawer drawer_id cabinet st2 = (Ret old, st2) /\
    action_history st2 = action_history st.
Proof.
  intros H.
  set (old := drawer_at (db st) drawer_id cabinet).
  set (a := action_for old drawer_id nm q cabinet).
  eexists old, a, _, _.
  split; [apply get_drawer_healthy, H|].
  split; [apply update_drawer_healthy, H|].
  split; [reflexivity|].
  split; [|split].
  - intros E. subst a. unfold action_for. simpl.
    now rewrite (proj2 (empty_drawer_dec old) E).
  - intros E. subst a. unfold action_for. simpl.
    destruct (String.eqb (name old) "" && (qty old =? 0)) eqn:B; [|auto].
    now apply empty_drawer_dec in B.
  - split; [apply (undo_healthy _ (action_history st) a); [exact H|reflexivity]|].
    split; [|reflexivity].
    rewrite get_drawer_healthy by exact H. simpl. f_equal. f_equal.
    subst a. rewrite undo_table_action_for. apply upsert_restore.
Qed.

Lemma create_vs_update_classification_witness :
  healthy demo_store /\
  exists old a st1 st2,
    get_drawer "A1" "Default" demo_store = (Ret old, demo_store) /\
    update_drawer "A1" "Widget" 5 "Default" demo_store = (Ret tt, st1) /\
    action_history st1 = append a (action_history demo_store) /\
    (old = empty_drawer -> a_type a = Delete) /\
    (old <> empty_drawer ->
     a_type a = Update /\ prev_name a = name old /\ prev_qty a = qty old) /\
    undo st1 = (Ret true, st2) /\
    get_drawer "A1" "Default" st2 = (Ret old, st2) /\
    action_history st2 = action_history demo_store.
Proof.
  split; [reflexivity|].
  apply (create_vs_update_classification "A1" "Widget" 5 "Default" demo_store).
  reflexivity.
Defined.

(** C7.  Record-then-write ordering.  [update_drawer] is the store write
    run on the state in which the action (built from what [get_drawer]
    answered) is already appended to the history and the redo stack already
    cleared.  Hence whenever the call raises, the table is the one of
    before the call while the history ends with the action of this call. *)
Theorem record_precedes_write drawer_id nm q cabinet (st : Manager) :
  exists old st_rec,
    fst (get_drawer drawer_id cabinet st) = Ret old /\
    db st_rec = db st /\
    action_history st_rec
    = append (action_for old drawer_id nm q cabinet) (action_history st) /\
    redo_stack st_rec = [] /\
    update_drawer drawer_id nm q cabinet st
    = _update_drawer_in_db drawer_id nm q cabinet st_rec /\
    (forall e st',
        update_drawer drawer_id nm q cabinet st = (Raise e, st') ->
        db st' = db st /\
        action_history st'
        = append (action_for old drawer_id nm q cabinet) (action_history st) /\
        redo_stack st' = []).
Proof.
  pose proof (update_drawer_unfold drawer_id nm q cabinet st) as U.
  assert (G : exists d s1, get_drawer drawer_id cabinet st = (Ret d, s1) /\
                           db s1 = db st /\ action_history s1 = action_history st).
  { unfold get_drawer. destruct (invalid_id drawer_id); [eexists _, _; eauto|].
    unfold try_except, bind, sqlite_query, next_fault.
    destruct (sqlite_faults st) as [|[] fs]; simpl;
      try destruct (db st !! _); eexists _, _; eauto. }
  destruct G as (d & s1 & G & Hdb & Hh). rewrite G in U. simpl in U.
  exists d. eexists. rewrite G.
  split; [reflexivity|].
  split; [|split; [|split; [|split; [exact U|]]]];
    [simpl; exact Hdb | simpl; now rewrite Hh | reflexivity |].
  intros e st' E. rewrite U in E.
  pose proof (write_frame drawer_id nm q cabinet
                (set_redo_stack [] (set_action_history
                   (append (action_for d drawer_id nm q cabinet) (action_history s1)) s1)))
    as (F1 & F2 & F3).
  rewrite E in F1, F2, F3. simpl in *.
  rewrite F1, F2, (F3 e eq_refl), Hh. auto.
Qed.

Lemma record_precedes_write_witness :
  let st' := snd (update_drawer "B3" "Nuts" 9 "Default" failing_write_store) in
  update_drawer "B3" "Nuts" 9 "Default" failing_write_store = (Raise SqliteError, st') /\
  db st' = db failing_write_store /\
  redo_stack st' = [] /\
  action_history st'
  = [action_for {| name := "Bolts"; qty := 2 |} "B3" "Nuts" 9 "Default"].
Proof.
  intros st'.
  assert (E : update_drawer "B3" "Nuts" 9 "Default" failing_write_store
              = (Raise SqliteError, st')) by (vm_compute; reflexivity).
  destruct (record_precedes_write "B3" "Nuts" 9 "Default" failing_write_store)
    as (old & st_rec & G & _ & _ & _ & _ & F).
  vm_compute in G. injection G as <-.
  destruct (F _ _ E) as (F1 & F2 & F3).
  split; [exact E|]. split; [exact F1|]. split; [exact F3|]. exact F2.
Defined.

(** C9.  Identifier shorter than two characters.  Such a call touches
    neither the table nor sqlite and returns normally, yet appends an
    action (of type 'delete', previous state empty) and clears the redo
    stack; [undo()] then pops that action, answers [True] and pushes it on
    the redo stack, again without touching the table. *)
Theorem short_id_update_is_recorded_noop drawer_id nm q cabinet (st : Manager) :
  (String.length drawer_id < 2)%nat ->
  let a := action_for empty_drawer drawer_id nm q cabinet in
  let st1 := set_redo_stack [] (set_action_history (append a (action_history st)) st) in
  update_drawer drawer_id nm q cabinet st = (Ret tt, st1) /\
  db st1 = db st /\
  a_type a = Delete /\
  undo st1 = (Ret true, set_redo_stack [a] st).
Proof.
  intros H a st1. pose proof (invalid_id_short _ H) as I.
  assert (U : update_drawer drawer_id nm q cabinet st = (Ret tt, st1)).
  { unfold update_drawer, get_drawer, _update_drawer_in_db. rewrite I. reflexivity. }
  split; [exact U|]. split; [reflexivity|]. split; [reflexivity|].
  unfold undo. subst st1. simpl. rewrite pop_append. simpl.
  unfold try_except, bind, _update_drawer_in_db. simpl. rewrite I. simpl.
  destruct st; reflexivity.
Qed.

Lemma short_id_update_is_recorded_noop_witness :
  (String.length "A" < 2)%nat /\
  let a := action_for empty_drawer "A" "Widget" 5 "Default" in
  let st1 := set_redo_stack []
               (set_action_history (append a (action_history demo_store)) demo_store) in
  update_drawer "A" "Widget" 5 "Default" demo_store = (Ret tt, st1) /\
  db st1 = db demo_store /\
  a_type a = Delete /\
  undo st1 = (Ret true, set_redo_stack [a] demo_store).
Proof.
  split; [simpl; lia|].
  apply (short_id_update_is_recorded_noop "A" "Widget" 5 "Default" demo_store).
  simpl; lia.
Defined.

(** ** Key-space model (app/utilities.py) *)

Section KeySpace.

Lemma dict_get_set_eq {V} k (v : V) d : PyDict.get k (PyDict.set k v d) = Some v.
Proof.
  induction d as [|[k' v'] r IH]; simpl.
  - now rewrite String.eqb_refl.
  - destruct (String.eqb k' k) eqn:E; simpl; rewrite ?E, ?String.eqb_refl; auto.
Qed.

Lemma dict_get_set_ne {V} k k' (v : V) d :
  k <> k' -> PyDict.get k' (PyDict.set k v d) = PyDict.get k' d.
Proof.
  intros N. induction d as [|[k0 v0] r IH]; simpl.
  - destruct (String.eqb_spec k k'); [contradiction|reflexivity].
  - destruct (String.eqb_spec k0 k) as [->|]; simpl.
    + destruct (String.eqb_spec k k'); [contradiction|reflexivity].
    + now rewrite IH.
Qed.

Lemma dict_set_absent {V} k (v : V) d :
  PyDict.get k d = None -> PyDict.set k v d = d ++ [(k, v)].
Proof.
  induction d as [|[k0 v0] r IH]; simpl; [reflexivity|].
  destruct (String.eqb k0 k); [discriminate|]. intros H. now rewrite IH.
Qed.

Lemma dict_mem_get {V} k (d : PyDict.dict V) :
  PyDict.mem k d = true <-> PyDict.get k d <> None.
Proof. unfold PyDict.mem. destruct (PyDict.get k d); split; congruence. Qed.

Lemma fill_missing_get inv key k :
  PyDict.get k (fill_missing inv key)
  = match PyDict.get k inv with
    | Some v => Some v
    | None => if String.eqb key k then Some empty_drawer else None
    end.
Proof.
  unfold fill_missing, PyDict.mem.
  destruct (PyDict.get key inv) eqn:G.
  - destruct (PyDict.get k inv) eqn:G'; [reflexivity|].
    destruct (String.eqb_spec key k); [congruence|reflexivity].
  - destruct (String.eqb_spec key k) as [->|N].
    + now rewrite dict_get_set_eq, G.
    + rewrite dict_get_set_ne by exact N. now destruct (PyDict.get k inv).
Qed.

Lemma fill_all_get keys : forall inv k,
  PyDict.get k (fold_left fill_missing keys inv)
  = match PyDict.get k inv with
    | Some v => Some v
    | None => if existsb (fun key => String.eqb key k) keys
              then Some empty_drawer else None
    end.
Proof.
  induction keys as [|key r IH]; intros inv k; simpl.
  - now destruct (PyDict.get k inv).
  - rewrite IH, fill_missing_get. destruct (PyDict.get k inv); [reflexivity|].
    now destruct (String.eqb key k).
Qed.

Lemma fill_all_prefix keys : forall inv,
  exists extra, fold_left fill_missing keys inv = inv ++ extra.
Proof.
  induction keys as [|key r IH]; intros inv; simpl.
  - exists []. now rewrite app_nil_r.
  - destruct (IH (fill_missing inv key)) as [extra ->].
    unfold fill_missing, PyDict.mem. destruct (PyDict.get key inv) eqn:G.
    + now exists extra.
    + rewrite (dict_set_absent _ _ _ G), <- app_assoc. now eexists.
Qed.

Lemma all_keys_listed :
  generate_all_drawer_keys
  = ["A1"; "A2"; "A3"; "A4"; "A5"; "A6"; "A7"; "A8"; "A9";
     "B1"; "B2"; "B3"; "B4"; "B5"; "B6"; "B7"; "B8"; "B9";
     "C1"; "C2"; "C3"; "C4"; "C5"; "C6"; "C7"; "C8"; "C9";
     "D1"; "D2"; "D3"; "D4"; "D5"; "D6"; "D7"; "D8"; "D9";
     "E1"; "E2"; "E3"; "E4"; "F1"; "F2"; "F3"; "F4";
     "G1"; "G2"; "G3"; "G4"].
Proof. vm_compute. reflexivity. Qed.

(** The two loops of [pad_inventory] visit the keys in the order in which
    [generate_all_drawer_keys] lists them. *)
Lemma pad_inventory_fold inventory :
  pad_inventory inventory = fold_left fill_missing generate_all_drawer_keys inventory.
Proof.
  rewrite all_keys_listed. cbv -[fill_missing]. reflexivity.
Qed.

Lemma existsb_eqb_In k keys :
  existsb (fun key => String.eqb key k) keys = true <-> In k keys.
Proof.
  rewrite existsb_exists. split.
  - intros (x & I & E). apply String.eqb_eq in E. now subst.
  - intros I. exists k. split; [exact I|apply String.eqb_refl].
Qed.

End KeySpace.

Local Ltac key_shape :=
  match goal with
  | |- exists row col, String ?r (String ?c EmptyString) = _ /\ _ =>
      exists (String r EmptyString), (Z.of_N (N_of_ascii c) - 48);
      split; [reflexivity
             | simpl; (left; split; [tauto|lia]) || (right; split; [tauto|lia])]
  end.

(** C4.  Padding.  For every inventory map [m] and key [k]: a canonical
    key is in [pad_inventory m]; a canonical key absent from [m] is bound
    to the empty drawer; an entry of [m] (canonical key or not) keeps its
    value, and [m] is an initial segment of the padded map, so it also
    keeps its place; a key neither canonical nor in [m] stays absent.  The
    canonical keys are the 48 keys A1..A9, B1..B9, C1..C9, D1..D9, E1..E4,
    F1..F4, G1..G4. *)
Theorem pad_inventory_complete (m : PyDict.dict Drawer) (k : string) :
  (In k generate_all_drawer_keys -> PyDict.mem k (pad_inventory m) = true) /\
  (In k generate_all_drawer_keys -> PyDict.get k m = None ->
   PyDict.get k (pad_inventory m) = Some empty_drawer) /\
  (forall v, PyDict.get k m = Some v -> PyDict.get k (pad_inventory m) = Some v) /\
  (~ In k generate_all_drawer_keys -> PyDict.get k m = None ->
   PyDict.get k (pad_inventory m) = None) /\
  (exists extra, pad_inventory m = m ++ extra) /\
  length generate_all_drawer_keys = 48%nat /\
  (In k generate_all_drawer_keys <->
   exists row col,
     k = row +:+ str_digit col /\
     ((In row ["A"; "B"; "C"; "D"] /\ 1 <= col <= 9) \/
      (In row ["E"; "F"; "G"] /\ 1 <= col <= 4))).
Proof.
  rewrite pad_inventory_fold.
  assert (G := fill_all_get generate_all_drawer_keys m k).
  split; [|split; [|split; [|split; [|split; [|split]]]]].
  - intros I. apply dict_mem_get. rewrite G.
    apply existsb_eqb_In in I. rewrite I. destruct (PyDict.get k m); congruence.
  - intros I N. rewrite G, N. apply existsb_eqb_In in I. rewrite I. reflexivity.
  - intros v E. rewrite G, E. reflexivity.
  - intros I N. rewrite G, N.
    destruct (existsb _ _) eqn:E; [|reflexivity].
    apply existsb_eqb_In in E. contradiction.
  - apply fill_all_prefix.
  - rewrite all_keys_listed. reflexivity.
  - rewrite all_keys_listed. split.
    + intros I. simpl in I.
      repeat (destruct I as [<-|I]; [key_shape|]). contradiction.
    + intros (row & col & -> & H).
      assert (C : (In row ["A"; "B"; "C"; "D"] /\ In col [1;2;3;4;5;6;7;8;9]) \/
                  (In row ["E"; "F"; "G"] /\ In col [1;2;3;4])).
      { destruct H as [[R C]|[R C]]; [left|right]; (split; [exact R|]); simpl; lia. }
      clear H. simpl in C.
      destruct C as [[R C]|[R C]];
        repeat (destruct R as [<-|R]; [|]); try contradiction;
        repeat (destruct C as [<-|C]; [|]); try contradiction;
        vm_compute; tauto.
Qed.

Lemma pad_inventory_complete_witness :
  In "A1" generate_all_drawer_keys /\
  PyDict.get "A1" demo_inventory = None /\
  PyDict.mem "A1" (pad_inventory demo_inventory) = true /\
  PyDict.get "A1" (pad_inventory demo_inventory) = Some empty_drawer.
Proof.
  assert (I : In "A1" generate_all_drawer_keys) by (vm_compute; left; reflexivity).
  destruct (pad_inventory_complete demo_inventory "A1") as (H1 & H2 & _).
  split; [exact I|]. split; [reflexivity|].
  split; [apply H1, I | apply H2; [exact I | reflexivity]].
Defined.

(** C4, as first stated, counts 31 canonical keys.  Rows A-D with columns
    1-9 and rows E-G with columns 1-4 are 4*9 + 3*4 = 48 keys: padding the
    empty inventory yields exactly these 48 distinct keys. *)
Lemma pad_inventory_has_48_keys_not_31 :
  PyDict.keys (pad_inventory []) = generate_all_drawer_keys /\
  NoDup generate_all_drawer_keys /\
  length (PyDict.keys (pad_inventory [])) = 48%nat /\
  length (PyDict.keys (pad_inventory [])) <> 31%nat.
Proof.
  assert (E : PyDict.keys (pad_inventory []) = generate_all_drawer_keys)
    by (vm_compute; reflexivity).
  rewrite E, all_keys_listed. split; [reflexivity|]. split.
  - apply (bool_decide_unpack _). vm_compute. exact I.
  - split; [reflexivity|]. simpl. lia.
Qed.

(** ** The order of [sorted] *)

Section StringOrder.

Lemma ascii_compare_eq a b : Ascii.compare a b = Eq <-> a = b.
Proof.
  split; [apply Ascii.compare_eq_iff|]. intros ->. apply N.compare_refl.
Qed.

Lemma string_compare_lt_trans s1 : forall s2 s3,
  String.compare s1 s2 = Lt -> String.compare s2 s3 = Lt -> String.compare s1 s3 = Lt.
Proof.
  induction s1 as [|a s1 IH]; intros [|b s2] [|c s3]; simpl; try congruence.
  destruct (Ascii.compare a b) eqn:Eab; try discriminate.
  - apply ascii_compare_eq in Eab. subst b.
    destruct (Ascii.compare a c); try congruence. apply IH.
  - intros _. destruct (Ascii.compare b c) eqn:Ebc; try discriminate.
    + apply ascii_compare_eq in Ebc. subst c. now rewrite Eab.
    + intros _. unfold Ascii.compare in *.
      rewrite N.compare_lt_iff in *.
      assert (L : (N_of_ascii a < N_of_ascii c)%N) by lia.
      apply N.compare_lt_iff in L. now rewrite L.
Qed.

Lemma string_compare_refl s : String.compare s s = Eq.
Proof.
  induction s as [|a s IH]; simpl; [reflexivity|].
  now rewrite (proj2 (ascii_compare_eq a a) eq_refl).
Qed.

#[global] Instance str_le_trans : Transitive str_le.
Proof.
  intros s1 s2 s3. unfold str_le, String.leb.
  destruct (String.compare s1 s2) eqn:E12; try discriminate; intros _;
    destruct (String.compare s2 s3) eqn:E23; try discriminate; intros _.
  - apply String.compare_eq_iff in E12, E23. subst.
    now rewrite string_compare_refl.
  - apply String.compare_eq_iff in E12. subst. now rewrite E23.
  - apply String.compare_eq_iff in E23. subst. now rewrite E12.
  - now rewrite (string_compare_lt_trans _ _ _ E12 E23).
Qed.

#[global] Instance str_le_antisym : AntiSymm (=) str_le.
Proof. intros s1 s2. apply String.leb_antisym. Qed.

#[global] Instance str_le_total : Total str_le.
Proof. intros s1 s2. apply String.leb_total. Qed.

Lemma sorted_unique l l' :
  Sorted str_le l' -> l' ≡ₚ l -> sorted l = l'.
Proof.
  intros S P. unfold sorted. apply (Sorted_unique str_le).
  - apply Sorted_merge_sort, _.
  - exact S.
  - now rewrite merge_sort_Permutation.
Qed.

Lemma StronglySorted_filter {A} (R : relation A) (p : A -> bool) l :
  StronglySorted R l -> StronglySorted R (List.filter p l).
Proof.
  induction 1 as [|x l S IH F]; simpl; [constructor|].
  destruct (p x); [|exact IH]. constructor; [exact IH|].
  rewrite List.Forall_forall in *. intros y I. apply List.filter_In in I. now apply F.
Qed.

Lemma all_keys_sorted : StronglySorted str_le generate_all_drawer_keys.
Proof. apply (bool_decide_unpack _). vm_compute. exact I. Qed.

Lemma all_keys_NoDup : NoDup generate_all_drawer_keys.
Proof. apply (bool_decide_unpack _). vm_compute. exact I. Qed.

(** The sorted set difference is the list of canonical keys, in their
    generation order, without those the inventory holds. *)
Lemma available_keys_filter inv :
  available_keys inv
  = List.filter (fun k => negb (PyDict.mem k inv)) generate_all_drawer_keys.
Proof.
  unfold available_keys. apply sorted_unique.
  - apply StronglySorted_Sorted, StronglySorted_filter, all_keys_sorted.
  - apply NoDup_Permutation.
    + apply NoDup_ListNoDup, List.NoDup_filter, NoDup_ListNoDup, all_keys_NoDup.
    + apply NoDup_elements.
    + intros k. rewrite elem_of_elements, elem_of_difference, !elem_of_list_to_set.
      rewrite list_elem_of_In, List.filter_In, negb_true_iff, list_elem_of_In.
      rewrite <- not_true_iff_false, dict_mem_get.
      assert (K : In k (PyDict.keys inv) <-> PyDict.get k inv <> None).
      { unfold PyDict.keys. induction inv as [|[k0 v0] r IH]; simpl; [tauto|].
        destruct (String.eqb_spec k0 k); [split; [congruence|auto]|].
        rewrite <- IH. tauto. }
      rewrite list_elem_of_In. rewrite K. tauto.
Qed.

End StringOrder.

Section RowOrder.

Lemma key_le_total : Total key_le.
Proof.
  intros e1 e2. unfold key_le, key_leb.
  rewrite (String.compare_antisym e2.1.1.1 e1.1.1.1).
  destruct (String.compare e1.1.1.1 e2.1.1.1); simpl; auto.
  destruct (String.leb_total e1.1.1.2 e2.1.1.2); auto.
Qed.

(** The rows of one cabinet come in the order of the primary key. *)
Lemma select_cabinet_sorted cabinet t : Sorted key_le (select_cabinet cabinet t).
Proof. unfold select_cabinet. apply Sorted_merge_sort, key_le_total. Qed.

End RowOrder.

(** ** Reading the inventory *)

Section FoldSet.
Context {A V : Type} (key : A -> string) (val : A -> V).

Lemma fold_set_None k l : forall d,
  PyDict.get k (fold_left (set_entry key val) l d) = None
  <-> PyDict.get k d = None /\ forall e, In e l -> key e <> k.
Proof.
  induction l as [|e l IH]; intros d; simpl.
  - split; [intros H; split; [exact H|tauto] | tauto].
  - rewrite IH. unfold set_entry. split.
    + intros [G F]. destruct (String.eqb_spec (key e) k) as [E|N].
      * subst k. now rewrite dict_get_set_eq in G.
      * rewrite dict_get_set_ne in G by exact N.
        split; [exact G|]. intros e' [<-|I]; auto.
    + intros [G F]. assert (N : key e <> k) by auto.
      rewrite dict_get_set_ne by exact N. auto.
Qed.

Lemma fold_set_Some k v l : forall d,
  PyDict.get k (fold_left (set_entry key val) l d) = Some v ->
  PyDict.get k d = Some v \/ exists e, In e l /\ key e = k /\ val e = v.
Proof.
  induction l as [|e l IH]; intros d; simpl; [auto|].
  intros H. apply IH in H. destruct H as [H|(e' & I & K & W)].
  - unfold set_entry in H. destruct (String.eqb_spec (key e) k) as [E|N].
    + subst k. rewrite dict_get_set_eq in H. inversion H. right. eauto.
    + rewrite dict_get_set_ne in H by exact N. auto.
  - right. eauto.
Qed.

Lemma dict_keys_set k (v : V) d :
  PyDict.keys (PyDict.set k v d)
  = if PyDict.mem k d then PyDict.keys d else PyDict.keys d ++ [k].
Proof.
  unfold PyDict.mem, PyDict.keys. induction d as [|[k0 v0] r IH]; simpl; [reflexivity|].
  destruct (String.eqb_spec k0 k) as [->|N]; simpl; [reflexivity|].
  rewrite IH. now destruct (PyDict.get k r).
Qed.

Lemma dict_get_In k (d : PyDict.dict V) :
  PyDict.get k d <> None <-> In k (PyDict.keys d).
Proof.
  unfold PyDict.keys. induction d as [|[k0 v0] r IH]; simpl; [tauto|].
  destruct (String.eqb_spec k0 k); [split; [auto|congruence]|].
  rewrite IH. tauto.
Qed.

Lemma dict_set_NoDup k (v : V) d :
  List.NoDup (PyDict.keys d) -> List.NoDup (PyDict.keys (PyDict.set k v d)).
Proof.
  intros H. rewrite dict_keys_set. destruct (PyDict.mem k d) eqn:M; [exact H|].
  apply NoDup_ListNoDup, NoDup_app. repeat split.
  - now apply NoDup_ListNoDup.
  - intros x I J. apply list_elem_of_In in I. apply list_elem_of_In in J.
    destruct J as [<-|[]]. apply dict_get_In in I.
    apply dict_mem_get in I. congruence.
  - apply NoDup_ListNoDup. repeat constructor. simpl. tauto.
Qed.

Lemma fold_set_NoDup l : forall d,
  List.NoDup (PyDict.keys d) -> List.NoDup (PyDict.keys (fold_left (set_entry key val) l d)).
Proof.
  induction l as [|e l IH]; intros d H; simpl; [exact H|].
  apply IH. now apply dict_set_NoDup.
Qed.

End FoldSet.




Lemma dict_get_Some_In {V} k (v : V) d : PyDict.get k d = Some v -> In (k, v) d.
Proof.
  induction d as [|[k0 v0] r IH]; simpl; [discriminate|].
  destruct (String.eqb_spec k0 k) as [->|]; [|auto].
  intros E. inversion E. auto.
Qed.

Section Inventory.

Lemma inventory_of_fold cabinet t :
  inventory_of cabinet t
  = fold_left (set_entry entry_key entry_val) (select_cabinet cabinet t) [].
Proof.
  unfold inventory_of. generalize (@nil (string * Drawer)).
  induction (select_cabinet cabinet t) as [|[[[row col] nm] q] l IH]; intros d;
    simpl; [reflexivity|]. apply IH.
Qed.

Lemma get_inventory_healthy cabinet st :
  healthy st -> get_inventory cabinet st = (Ret (inventory_of cabinet (db st)), st).
Proof.
  intros H. unfold get_inventory, try_except, bind, sqlite_query.
  rewrite (next_fault_healthy _ H). reflexivity.
Qed.

Lemma select_cabinet_In cabinet t row col nm q :
  In (row, col, nm, q) (select_cabinet cabinet t)
  <-> exists r, t !! (cabinet, row, col) = Some r /\ nm = col_name r /\ q = col_qty r.
Proof.
  unfold select_cabinet.
  rewrite <- list_elem_of_In, merge_sort_Permutation, list_elem_of_omap. split.
  - intros ([[[c row'] col'] r] & I & E). apply elem_of_map_to_list in I.
    destruct (String.eqb_spec c cabinet); [|discriminate].
    inversion E; subst. eauto.
  - intros (r & L & -> & ->). exists (cabinet, row, col, r). split.
    + now apply elem_of_map_to_list.
    + now rewrite String.eqb_refl.
Qed.

Lemma inventory_NoDup cabinet t : List.NoDup (PyDict.keys (inventory_of cabinet t)).
Proof. rewrite inventory_of_fold. apply fold_set_NoDup. constructor. Qed.

(** A stored row makes its key a key of the fetched inventory, whatever
    the row holds. *)
Lemma inventory_has_stored_key cabinet t row col r :
  t !! (cabinet, row, col) = Some r ->
  PyDict.mem (PyStr.upper (row +:+ col)) (inventory_of cabinet t) = true.
Proof.
  intros L. apply dict_mem_get. rewrite inventory_of_fold. intros N.
  apply fold_set_None in N. destruct N as [_ N].
  apply (N (row, col, col_name r, col_qty r)); [|reflexivity].
  apply select_cabinet_In. eauto.
Qed.

End Inventory.

(** ** Facts about the string operations *)

Section Strings.

Lemma upper_char_idem c : PyStr.upper_char (PyStr.upper_char c) = PyStr.upper_char c.
Proof. destruct c as [[] [] [] [] [] [] [] []]; reflexivity. Qed.

Lemma upper_app a b : PyStr.upper (a +:+ b) = PyStr.upper a +:+ PyStr.upper b.
Proof. induction a as [|c a IH]; simpl; [reflexivity|]. now rewrite IH. Qed.

Lemma invalid_id_false k : invalid_id k = false <-> (2 <= String.length k)%nat.
Proof.
  unfold invalid_id, PyStr.len. rewrite orb_false_iff, Z.ltb_ge. split.
  - intros [_ H]. lia.
  - intros H. split; [|lia]. destruct k; [simpl in H; lia|reflexivity].
Qed.

(** The key under which [get_inventory] lists the row that a write to
    [drawer_id] stores. *)
Lemma stored_key_upper drawer_id :
  invalid_id drawer_id = false ->
  PyStr.upper (PyStr.upper (PyStr.head drawer_id) +:+ PyStr.tail drawer_id)
  = PyStr.upper drawer_id.
Proof.
  intros H. apply invalid_id_false in H.
  destruct drawer_id as [|c r]; [simpl in H; lia|]. simpl.
  now rewrite upper_char_idem.
Qed.

Lemma normalized_key row col :
  String.length row = 1%nat -> PyStr.upper row = row -> PyStr.upper col = col ->
  col <> "" ->
  let k := PyStr.upper (row +:+ col) in
  k = row +:+ col /\ invalid_id k = false /\
  PyStr.upper (PyStr.head k) = row /\ PyStr.tail k = col.
Proof.
  intros L Ur Uc N k. subst k. rewrite upper_app, Ur, Uc.
  destruct row as [|c [|? ?]]; simpl in L; try lia.
  simpl. split; [reflexivity|]. split.
  - apply invalid_id_false. destruct col; [congruence|simpl; lia].
  - split; [|reflexivity]. simpl in Ur. exact Ur.
Qed.

Lemma all_keys_valid k :
  In k generate_all_drawer_keys -> invalid_id k = false /\ PyStr.upper k = k.
Proof.
  rewrite all_keys_listed. simpl.
  intros I. repeat (destruct I as [<-|I]; [split; reflexivity|]). contradiction.
Qed.

End Strings.

Section InventoryViews.

(** On a normalized table the fetched inventory and [get_drawer] agree. *)
Lemma inventory_get_normalized cabinet t k d :
  normalized t ->
  PyDict.get k (inventory_of cabinet t) = Some d ->
  invalid_id k = false /\ drawer_at t k cabinet = d.
Proof.
  intros N G. rewrite inventory_of_fold in G. apply fold_set_Some in G.
  destruct G as [G|([[[row col] nm] q] & I & K & W)]; [discriminate|].
  apply select_cabinet_In in I. destruct I as (r & L & -> & ->).
  destruct (N _ _ _ _ L) as (Lr & Ur & Uc & Nc).
  destruct (normalized_key row col Lr Ur Uc Nc) as (_ & V & H & T).
  unfold entry_key in K. simpl in K. rewrite K in V, H, T.
  split; [exact V|]. unfold drawer_at. rewrite V, H, T, L. exact W.
Qed.

(** A key that the fetched inventory lacks reads as the empty drawer. *)
Lemma drawer_at_absent cabinet t k :
  PyStr.upper k = k ->
  PyDict.get k (inventory_of cabinet t) = None ->
  drawer_at t k cabinet = empty_drawer.
Proof.
  intros U G. unfold drawer_at. destruct (invalid_id k) eqn:V; [reflexivity|].
  destruct (t !! _) as [r|] eqn:L; [|reflexivity].
  apply inventory_has_stored_key in L. rewrite (stored_key_upper _ V), U in L.
  apply dict_mem_get in L. congruence.
Qed.

Lemma pad_inventory_NoDup inv :
  List.NoDup (PyDict.keys inv) -> List.NoDup (PyDict.keys (pad_inventory inv)).
Proof.
  rewrite pad_inventory_fold. generalize generate_all_drawer_keys as keys.
  intros keys. revert inv. induction keys as [|k keys IH]; intros inv H; simpl; [exact H|].
  apply IH. unfold fill_missing. destruct (PyDict.mem k inv); [exact H|].
  now apply dict_set_NoDup.
Qed.

Lemma pad_inventory_get inv k :
  PyDict.get k (pad_inventory inv)
  = match PyDict.get k inv with
    | Some v => Some v
    | None => if existsb (fun key => String.eqb key k) generate_all_drawer_keys
              then Some empty_drawer else None
    end.
Proof. rewrite pad_inventory_fold. apply fill_all_get. Qed.

(** The padded snapshot of a normalized table agrees with [get_drawer]. *)
Lemma snapshot_get_normalized cabinet t k d :
  normalized t ->
  PyDict.get k (pad_inventory (inventory_of cabinet t)) = Some d ->
  invalid_id k = false /\ drawer_at t k cabinet = d.
Proof.
  intros N. rewrite pad_inventory_get.
  destruct (PyDict.get k (inventory_of cabinet t)) as [v|] eqn:G.
  - intros E. inversion E; subst. eapply inventory_get_normalized; eauto.
  - destruct (existsb _ _) eqn:X; [|discriminate].
    apply existsb_eqb_In, all_keys_valid in X. destruct X as [V U].
    intros E. inversion E; subst. split; [exact V|].
    now apply drawer_at_absent.
Qed.

End InventoryViews.

(** ** First available key *)

Lemma available_keys_In inv k :
  In k (available_keys inv)
  <-> In k generate_all_drawer_keys /\ PyDict.mem k inv = false.
Proof.
  rewrite available_keys_filter, List.filter_In, negb_true_iff. tauto.
Qed.




(** After Widget is written to A1 and undone, a bulk record with a new
    name takes A2: A1 still counts as used. *)
Example undone_create_slot_not_reused :
  let st := snd (undo (snd (update_drawer "A1" "Widget" 5 "Default" demo_store))) in
  let st' := snd (bulk_update "Default" ["Screws,4"] st) in
  drawer_at (db st') "A1" "Default" = empty_drawer /\
  drawer_at (db st') "A2" "Default" = {| name := "Screws"; qty := 4 |}.
Proof. vm_compute. split; reflexivity. Qed.

(** ** Running one record through a batch path *)

Section Batches.

Lemma fields_nonempty line a b rest : fields line = a :: b :: rest -> line <> "".
Proof. intros H ->. discriminate. Qed.

(** [bulk_update_line] never raises: the batch goes on whatever the line. *)
Lemma bulk_update_line_returns cabinet inventory line st :
  fst (bulk_update_line cabinet inventory line st) = Ret tt.
Proof.
  unfold bulk_update_line, try_except.
  destruct (_ st) as [[[]|e] st']; reflexivity.
Qed.

Lemma bulk_update_single cabinet raw st :
  healthy st -> PyStr.strip raw <> "" ->
  bulk_update cabinet [raw] st
  = (Ret tt,
     snd (bulk_update_line cabinet (pad_inventory (inventory_of cabinet (db st)))
                           (PyStr.strip raw) st)).
Proof.
  intros H N. unfold bulk_update. simpl.
  destruct (String.eqb_spec (PyStr.strip raw) ""); [contradiction|]. simpl.
  unfold bind at 1, try_except, bind at 1.
  rewrite (get_inventory_healthy _ _ H). simpl. unfold bind.
  pose proof (bulk_update_line_returns cabinet
                (pad_inventory (inventory_of cabinet (db st))) (PyStr.strip raw) st) as R.
  destruct (bulk_update_line _ _ _ st) as [o st']. simpl in *. now subst o.
Qed.

Lemma import_txt_cons cabinet raw rest st st' :
  import_txt_line cabinet raw st = (Ret tt, st') ->
  import_txt cabinet (raw :: rest) st = import_txt cabinet rest st'.
Proof.
  intros E. unfold import_txt, try_except. simpl. unfold bind at 1, bind at 1.
  now rewrite E.
Qed.

Lemma import_txt_single cabinet raw st st' :
  import_txt_line cabinet raw st = (Ret tt, st') ->
  import_txt cabinet [raw] st = (Ret true, st').
Proof. intros E. now rewrite (import_txt_cons _ _ _ _ _ E). Qed.

Lemma bulk_three_fields cabinet inventory line location nm qs q st :
  healthy st ->
  fields line = [location; nm; qs] -> PyStr.int qs = Some q ->
  bulk_update_line cabinet inventory line st
  = (Ret tt,
     snd (update_drawer (PyStr.upper location)
            (if q =? 0 then "" else PyStr.strip nm) (if q =? 0 then 0 else q)
            cabinet st)).
Proof.
  intros H F I. unfold bulk_update_line. rewrite F.
  unfold try_except, bind, py_int. rewrite I. unfold ret at 1.
  destruct (q =? 0); rewrite (update_drawer_healthy _ _ _ _ _ H); reflexivity.
Qed.

Lemma import_txt_three_fields cabinet raw location nm qs q st :
  healthy st ->
  parse_id_name_qty (PyStr.strip raw) = None ->
  fields (PyStr.strip raw) = [location; nm; qs] -> PyStr.int qs = Some q ->
  PyStr.upper location <> "" ->
  import_txt_line cabinet raw st
  = (Ret tt, snd (update_drawer (PyStr.upper location) nm q cabinet st)).
Proof.
  intros H P F I N. unfold import_txt_line.
  destruct (String.eqb_spec (PyStr.strip raw) "") as [E|_];
    [now apply fields_nonempty in F|].
  rewrite P. unfold bind at 1, parse_comma_separated. rewrite F.
  unfold try_except, bind, py_int. rewrite I. unfold ret.
  destruct (String.eqb_spec (PyStr.upper location) ""); [contradiction|]. simpl.
  now rewrite (update_drawer_healthy _ _ _ _ _ H).
Qed.

Lemma for_each_app {A} (body : A -> M unit) l1 l2 st :
  for_each (l1 ++ l2) body st
  = match for_each l1 body st with
    | (Ret _, st1) => for_each l2 body st1
    | (Raise e, st1) => (Raise e, st1)
    end.
Proof.
  revert st. induction l1 as [|x l1 IH]; intros st; simpl; [reflexivity|].
  unfold bind. destruct (body x st) as [[[]|e] s]; [apply IH|reflexivity].
Qed.

Lemma nonblank_app l1 l2 : nonblank (l1 ++ l2) = nonblank l1 ++ nonblank l2.
Proof. unfold nonblank. now rewrite map_app, List.filter_app. Qed.

Lemma bulk_update_unfold cabinet text_lines st :
  healthy st ->
  bulk_update cabinet text_lines st
  = for_each (nonblank text_lines)
      (bulk_update_line cabinet (pad_inventory (inventory_of cabinet (db st)))) st.
Proof.
  intros H. unfold bulk_update. fold (nonblank text_lines).
  destruct (nonblank text_lines) as [|l r]; [reflexivity|].
  unfold bind at 1, try_except, bind at 1. rewrite (get_inventory_healthy _ _ H).
  reflexivity.
Qed.



End Batches.

(** ** File imports: one record *)

Section FileImports.

Lemma import_csv_three_cells cabinet header c0 c1 c2 q st :
  healthy st ->
  csv_columns (Some header) = (0, 1, 2) \/ csv_columns (Some header) = (-1, -1, -1) ->
  PyStr.int (PyStr.strip c2) = Some q ->
  import_csv cabinet [header; [c0; c1; c2]] st
  = (Ret true,
     snd (update_drawer (PyStr.upper (PyStr.strip c0)) (PyStr.strip c1) q cabinet st)).
Proof.
  intros H C I. unfold import_csv. cbn [hd_error tl].
  assert (R : forall i n k,
             (i, n, k) = (0, 1, 2) \/ (i, n, k) = (-1, -1, -1) ->
             import_csv_row cabinet i n k [c0; c1; c2] st
             = (Ret tt,
                snd (update_drawer (PyStr.upper (PyStr.strip c0)) (PyStr.strip c1)
                                   q cabinet st))).
  { intros i n k [E|E]; inversion E; subst;
      unfold import_csv_row, try_except, bind, py_int, item;
      cbv beta iota zeta delta
          [length Z.of_nat Z.to_nat Pos.of_succ_nat Pos.succ Pos.to_nat Pos.iter_op
           Z.gtb Z.eqb Z.compare Pos.compare Pos.compare_cont Nat.add negb andb nth
           CompOpp Pos.eqb];
      rewrite I; unfold ret; rewrite (update_drawer_healthy _ _ _ _ _ H);
      reflexivity. }
  destruct (csv_columns (Some header)) as [[i n] k].
  unfold try_except, bind. cbn [for_each]. unfold bind. rewrite (R i n k C).
  reflexivity.
Qed.

Lemma import_json_one_entry cabinet drawer_id nm q st :
  healthy st ->
  import_json cabinet [(drawer_id, {| j_name := Some nm; j_qty := Some (inl q) |})] st
  = (Ret true,
     snd (update_drawer (PyStr.upper drawer_id) (PyStr.strip nm) q cabinet st)).
Proof.
  intros H. unfold import_json, import_json_entry, try_except, bind. cbn [for_each].
  unfold bind, try_except, bind. cbn [j_name j_qty]. unfold ret at 1.
  change (default "" (Some nm)) with nm.
  rewrite !(update_drawer_healthy _ _ _ _ _ H). reflexivity.
Qed.

Lemma import_excel_one_row cabinet id_cell name_cell q st :
  healthy st ->
  import_excel cabinet [(id_cell, name_cell, q)] st
  = (Ret true,
     snd (update_drawer (PyStr.upper (PyStr.strip id_cell))
            (if String.eqb (PyStr.lower (PyStr.strip name_cell)) "nan"
             then "" else PyStr.strip name_cell) q cabinet st)).
Proof.
  intros H. unfold import_excel, import_excel_row, try_except, bind. cbn [for_each].
  unfold bind. rewrite !(update_drawer_healthy _ _ _ _ _ H). reflexivity.
Qed.

Lemma update_drawer_reads drawer_id nm q cabinet st :
  healthy st -> invalid_id drawer_id = false ->
  reads (snd (update_drawer drawer_id nm q cabinet st)) drawer_id cabinet
        {| name := nm; qty := q |}.
Proof.
  intros H V. unfold reads. rewrite (update_drawer_healthy _ _ _ _ _ H). simpl.
  rewrite get_drawer_healthy by exact H. simpl. f_equal. f_equal.
  now apply drawer_at_upsert_same.
Qed.

End FileImports.

(** C2, as amended.  Zero-quantity convention.  With a database that
    answers: a 3-field record [location, name, 0] in the bulk text input
    leaves the drawer [location.upper()] reading as name "" and quantity 0,
    whatever the name field.  The file imports have no such convention: the
    same record in a TXT import, a CSV row (columns by the standard header
    or by position), a JSON entry and an Excel row are written with the
    name field as it is, whitespace stripped, and quantity 0 (the Excel
    import alone turns the text "nan" into ""). *)
Theorem zero_quantity_convention (st : Manager)
    (cabinet raw location nm qs : string) :
  healthy st ->
  fields (PyStr.strip raw) = [location; nm; qs] ->
  PyStr.int qs = Some 0 ->
  (exists st',
      bulk_update cabinet [raw] st = (Ret tt, st') /\
      reads st' (PyStr.upper location) cabinet empty_drawer) /\
  (parse_id_name_qty (PyStr.strip raw) = None ->
   invalid_id (PyStr.upper location) = false ->
   exists st',
      import_txt cabinet [raw] st = (Ret true, st') /\
      reads st' (PyStr.upper location) cabinet {| name := nm; qty := 0 |}) /\
  (forall header c0 c1 c2,
      csv_columns (Some header) = (0, 1, 2) \/
      csv_columns (Some header) = (-1, -1, -1) ->
      PyStr.int (PyStr.strip c2) = Some 0 ->
      invalid_id (PyStr.upper (PyStr.strip c0)) = false ->
      exists st',
        import_csv cabinet [header; [c0; c1; c2]] st = (Ret true, st') /\
        reads st' (PyStr.upper (PyStr.strip c0)) cabinet
              {| name := PyStr.strip c1; qty := 0 |}) /\
  (forall drawer_id name_field,
      invalid_id (PyStr.upper drawer_id) = false ->
      exists st',
        import_json cabinet
          [(drawer_id, {| j_name := Some name_field; j_qty := Some (inl 0) |})] st
        = (Ret true, st') /\
        reads st' (PyStr.upper drawer_id) cabinet
              {| name := PyStr.strip name_field; qty := 0 |}) /\
  (forall id_cell name_cell,
      invalid_id (PyStr.upper (PyStr.strip id_cell)) = false ->
      PyStr.lower (PyStr.strip name_cell) <> "nan" ->
      exists st',
        import_excel cabinet [(id_cell, name_cell, 0)] st = (Ret true, st') /\
        reads st' (PyStr.upper (PyStr.strip id_cell)) cabinet
              {| name := PyStr.strip name_cell; qty := 0 |}).
Proof.
  intros H F I. split; [|split; [|split; [|split]]].
  - eexists. split.
    + apply bulk_update_single; [exact H|]. eapply fields_nonempty, F.
    + rewrite (bulk_three_fields _ _ _ _ _ _ _ _ H F I). simpl. unfold reads.
      rewrite (update_drawer_healthy _ _ _ _ _ H). simpl.
      rewrite get_drawer_healthy by exact H. simpl. f_equal. f_equal.
      unfold drawer_at, upsert.
      destruct (invalid_id (PyStr.upper location)); [reflexivity|].
      now rewrite lookup_insert_eq.
  - intros P V. eexists. split.
    + apply import_txt_single. apply (import_txt_three_fields _ _ _ _ _ _ _ H P F I).
      intros E. rewrite E in V. discriminate.
    + now apply update_drawer_reads.
  - intros header c0 c1 c2 C I2 V. eexists. split.
    + apply (import_csv_three_cells _ _ _ _ _ _ _ H C I2).
    + now apply update_drawer_reads.
  - intros drawer_id name_field V. eexists. split.
    + apply (import_json_one_entry _ _ _ _ _ H).
    + now apply update_drawer_reads.
  - intros id_cell name_cell V NN. eexists. split.
    + apply (import_excel_one_row _ _ _ _ _ H).
    + destruct (String.eqb_spec (PyStr.lower (PyStr.strip name_cell)) "nan");
        [contradiction|]. now apply update_drawer_reads.
Qed.

Lemma zero_quantity_convention_witness :
  healthy demo_store /\
  fields (PyStr.strip " b3, Bolts ,0") = ["b3"; "Bolts"; "0"] /\
  PyStr.int "0" = Some 0 /\
  parse_id_name_qty (PyStr.strip " b3, Bolts ,0") = None /\
  invalid_id (PyStr.upper "b3") = false /\
  (exists st',
      bulk_update "Default" [" b3, Bolts ,0"] demo_store = (Ret tt, st') /\
      reads st' "B3" "Default" empty_drawer) /\
  (exists st',
      import_txt "Default" [" b3, Bolts ,0"] demo_store = (Ret true, st') /\
      reads st' "B3" "Default" {| name := "Bolts"; qty := 0 |}) /\
  (exists st',
      import_csv "Default" [["ID"; "Name"; "Quantity"]; ["b3"; " Bolts "; "0"]] demo_store
      = (Ret true, st') /\
      reads st' "B3" "Default" {| name := "Bolts"; qty := 0 |}).
Proof.
  assert (H : healthy demo_store) by reflexivity.
  assert (F : fields (PyStr.strip " b3, Bolts ,0") = ["b3"; "Bolts"; "0"])
    by (vm_compute; reflexivity).
  assert (I : PyStr.int "0" = Some 0) by (vm_compute; reflexivity).
  assert (P : parse_id_name_qty (PyStr.strip " b3, Bolts ,0") = None)
    by (vm_compute; reflexivity).
  assert (V : invalid_id (PyStr.upper "b3") = false) by (vm_compute; reflexivity).
  destruct (zero_quantity_convention demo_store "Default" _ _ _ _ H F I)
    as (B & T & C & _).
  split; [exact H|]. split; [exact F|]. split; [exact I|].
  split; [exact P|]. split; [exact V|]. split; [exact B|]. split; [exact (T P V)|].
  apply (C ["ID"; "Name"; "Quantity"] "b3" " Bolts " "0");
    [left|..]; vm_compute; reflexivity.
Defined.

(** C2, as first stated, also covers the file imports.  The TXT import of
    the 3-field record "A1,Widget,0" stores the name Widget with quantity
    0: the name is not cleared. *)
Lemma import_txt_keeps_name_on_zero_quantity :
  let st' := snd (import_txt "Default" ["A1,Widget,0"] demo_store) in
  fields "A1,Widget,0" = ["A1"; "Widget"; "0"] /\
  PyStr.int "0" = Some 0 /\
  import_txt "Default" ["A1,Widget,0"] demo_store = (Ret true, st') /\
  get_drawer "A1" "Default" st' = (Ret {| name := "Widget"; qty := 0 |}, st') /\
  db st' !! ("Default", "A", "1") = Some {| col_name := Some "Widget"; col_qty := Some 0 |} /\
  name {| name := "Widget"; qty := 0 |} <> "".
Proof. vm_compute. repeat split; discriminate. Qed.

(** ** Calls that leave an answering database answering *)

Section Answering.













End Answering.

(** ** Two-field records *)

Section TwoFields.


End TwoFields.

Section Resolution.





Lemma none_available inv :
  available_keys inv = [] <-> forall k, In k generate_all_drawer_keys -> PyDict.mem k inv = true.
Proof.
  pose proof (available_keys_In inv) as AI. split.
  - intros E k C. destruct (PyDict.mem k inv) eqn:M; [reflexivity|].
    assert (I : In k (available_keys inv)) by (apply AI; auto).
    rewrite E in I. contradiction.
  - intros A. destruct (available_keys inv) as [|k r] eqn:E; [reflexivity|].
    destruct (proj1 (AI k)) as [C M]; [now left|]. rewrite (A k C) in M. discriminate.
Qed.



Lemma invalid_id_nonempty k : invalid_id k = false -> k <> "".
Proof. intros V ->. discriminate. Qed.





End Resolution.


Lemma demo_store_normalized : normalized (db demo_store).
Proof.
  intros c row col r L. unfold demo_store in L. simpl in L.
  apply lookup_singleton_Some in L. destruct L as [E _].
  inversion E; subst. repeat split; discriminate.
Defined.


(** Of two drawers of one name the row that comes first in the order of
    the primary key is the match: with C5 and A1 both named Nuts, the
    fetched inventory lists A1 before C5 and the record "nuts,9" is
    written to A1. *)
Lemma name_match_in_key_order :
  let st' := snd (import_txt "Default" ["nuts,9"] two_nuts_store) in
  PyDict.keys (inventory_of "Default" (db two_nuts_store)) = ["A1"; "C5"] /\
  PyDict.first_key (name_matches "nuts") (inventory_of "Default" (db two_nuts_store))
  = Some "A1" /\
  import_txt "Default" ["nuts,9"] two_nuts_store = (Ret true, st') /\
  reads st' "A1" "Default" {| name := "nuts"; qty := 9 |} /\
  reads st' "C5" "Default" {| name := "Nuts"; qty := 1 |}.
Proof. cbv zeta. repeat split; vm_compute; reflexivity. Qed.


(** ** The "id: name (quantity)" shape *)

Section ColonShape.

Lemma contains_app ch a b :
  PyStr.contains ch (a +:+ b) = PyStr.contains ch a || PyStr.contains ch b.
Proof.
  induction a as [|c a IH]; simpl; [reflexivity|]. rewrite IH. apply orb_assoc.
Qed.

Lemma contains_lstrip ch s :
  PyStr.contains ch (PyStr.lstrip s) = true -> PyStr.contains ch s = true.
Proof.
  induction s as [|c s IH]; simpl; [auto|].
  destruct (PyStr.is_space c); [|auto]. intros H. rewrite (IH H). apply orb_true_r.
Qed.

Lemma contains_rstrip ch s :
  PyStr.contains ch (PyStr.rstrip s) = true -> PyStr.contains ch s = true.
Proof.
  induction s as [|c s IH]; simpl; [auto|].
  destruct (PyStr.rstrip s) as [|c' r'] eqn:E.
  - destruct (PyStr.is_space c); simpl; [discriminate|].
    rewrite orb_false_r. intros ->. reflexivity.
  - simpl. intros H. apply orb_true_iff in H. destruct H as [->|H]; [reflexivity|].
    simpl in IH. rewrite (IH H). apply orb_true_r.
Qed.

Lemma contains_strip ch s :
  PyStr.contains ch (PyStr.strip s) = true -> PyStr.contains ch s = true.
Proof. intros H. now apply contains_lstrip, contains_rstrip. Qed.

Lemma split_nonempty ch s : PyStr.split ch s <> [].
Proof.
  destruct s as [|c s]; simpl; [discriminate|].
  destruct (Ascii.eqb c ch); [discriminate|]. destruct (PyStr.split ch s); discriminate.
Qed.

(** Splitting at [ch] and joining with [ch] gives the string back. *)
Lemma join_split ch s : PyStr.join (String ch "") (PyStr.split ch s) = s.
Proof.
  induction s as [|c s IH]; simpl; [reflexivity|].
  pose proof (split_nonempty ch s) as N.
  destruct (Ascii.eqb_spec c ch) as [->|_].
  - simpl. destruct (PyStr.split ch s) as [|p ps]; [contradiction|]. now rewrite IH.
  - destruct (PyStr.split ch s) as [|p ps]; [contradiction|].
    simpl in *. destruct ps; simpl in *; now rewrite <- IH.
Qed.

(** The first part of a split is what precedes the first separator; the
    other parts, joined, are what follows it. *)
Lemma split_first ch a b :
  PyStr.contains ch a = false ->
  PyStr.split ch (a +:+ String ch b) = a :: PyStr.split ch b.
Proof.
  induction a as [|c a IH]; simpl.
  - intros _. now rewrite Ascii.eqb_refl.
  - intros H. apply orb_false_iff in H. destruct H as [E H]. rewrite E.
    now rewrite (IH H).
Qed.

Lemma len_nonneg s : 0 <= PyStr.len s.
Proof. unfold PyStr.len. lia. Qed.

Lemma len_String c s : PyStr.len (String c s) = PyStr.len s + 1.
Proof. unfold PyStr.len. simpl. lia. Qed.

(** [find] answers the position of the first occurrence. *)
Lemma find_first ch n r :
  PyStr.contains ch n = false ->
  PyStr.find ch (n +:+ String ch r) = PyStr.len n.
Proof.
  induction n as [|c n IH]; simpl.
  - intros _. now rewrite Ascii.eqb_refl.
  - intros H. apply orb_false_iff in H. destruct H as [E H]. rewrite E, (IH H).
    pose proof (len_nonneg n). rewrite len_String.
    destruct (Z.eqb_spec (PyStr.len n) (-1)); [lia|reflexivity].
Qed.

Lemma rfind_absent ch s : PyStr.contains ch s = false -> PyStr.rfind ch s = -1.
Proof.
  induction s as [|c s IH]; simpl; [reflexivity|].
  intros H. apply orb_false_iff in H. destruct H as [E H]. now rewrite (IH H), E.
Qed.

(** [rfind] answers the position of the last occurrence. *)
Lemma rfind_last ch p r :
  PyStr.contains ch r = false ->
  PyStr.rfind ch (p +:+ String ch r) = PyStr.len p.
Proof.
  intros H. induction p as [|c p IH]; simpl.
  - now rewrite (rfind_absent _ _ H), Ascii.eqb_refl.
  - rewrite IH, len_String. pose proof (len_nonneg p).
    destruct (Z.eqb_spec (PyStr.len p) (-1)); [lia|reflexivity].
Qed.

Lemma substring_prefix a b : String.substring 0 (String.length a) (a +:+ b) = a.
Proof.
  induction a as [|c a IH]; simpl; [now destruct b|]. now rewrite IH.
Qed.

Lemma substring_all a : String.substring 0 (String.length a) a = a.
Proof. induction a as [|c a IH]; simpl; [reflexivity|]. now rewrite IH. Qed.

Lemma substring_skip a b m :
  String.substring (String.length a) m (a +:+ b) = String.substring 0 m b.
Proof. induction a as [|c a IH]; simpl; [reflexivity|]. exact IH. Qed.

Lemma take_prefix a b : PyStr.take (a +:+ b) (PyStr.len a) = a.
Proof.
  unfold PyStr.take, PyStr.slice, PyStr.len. rewrite Nat2Z.id. simpl Z.to_nat.
  rewrite Nat.sub_0_r, substring_prefix. apply substring_all.
Qed.

Lemma length_append a b : String.length (a +:+ b) = (String.length a + String.length b)%nat.
Proof. induction a as [|c a IH]; simpl; [reflexivity|]. now rewrite IH. Qed.

Lemma str_app_cons x a b : String x a +:+ b = String x (a +:+ b).
Proof. reflexivity. Qed.

Lemma str_app_assoc a b c : (a +:+ b) +:+ c = a +:+ (b +:+ c).
Proof.
  induction a as [|x a IH]; [reflexivity|]. rewrite !str_app_cons. now rewrite IH.
Qed.

Lemma slice_middle a c qs b :
  PyStr.slice (a +:+ String c (qs +:+ b)) (PyStr.len a + 1)
              (PyStr.len (a +:+ String c qs)) = qs.
Proof.
  unfold PyStr.slice, PyStr.len.
  replace (Z.to_nat (Z.of_nat (String.length a) + 1)) with (String.length (a +:+ String c ""))
    by (rewrite length_append; simpl; lia).
  rewrite Nat2Z.id.
  replace (a +:+ String c (qs +:+ b)) with ((a +:+ String c qs) +:+ b)
    by apply str_app_assoc.
  rewrite substring_prefix.
  replace (a +:+ String c qs) with ((a +:+ String c "") +:+ qs) at 2
    by apply str_app_assoc.
  rewrite substring_skip.
  replace (String.length (a +:+ String c qs) - String.length (a +:+ String c ""))%nat
    with (String.length qs) by (rewrite !length_append; simpl; lia).
  apply substring_all.
Qed.

(** A line of that shape passes the test
    [':' in line and '(' in line and ')' in line]. *)
Lemma colon_shape_guard id_part rest nm_part qty_part after :
  PyStr.strip rest = nm_part +:+ String "(" (qty_part +:+ String ")" after) ->
  PyStr.contains ":" (id_part +:+ String ":" rest)
  && PyStr.contains "(" (id_part +:+ String ":" rest)
  && PyStr.contains ")" (id_part +:+ String ":" rest) = true.
Proof.
  intros Hrest.
  assert (C1 : PyStr.contains ":" (id_part +:+ String ":" rest) = true).
  { rewrite contains_app. simpl. apply orb_true_r. }
  assert (C2 : PyStr.contains "(" (id_part +:+ String ":" rest) = true).
  { rewrite contains_app. simpl. apply orb_true_iff. right.
    apply contains_strip. rewrite Hrest, contains_app. simpl. apply orb_true_r. }
  assert (C3 : PyStr.contains ")" (id_part +:+ String ":" rest) = true).
  { rewrite contains_app. simpl. apply orb_true_iff. right.
    apply contains_strip. rewrite Hrest, contains_app. simpl.
    rewrite contains_app. simpl. rewrite !orb_true_r. reflexivity. }
  now rewrite C1, C2, C3.
Qed.

(** What the first attempt of [import_txt] makes of a line: the drawer id
    is what precedes the first ':'; in the rest, stripped, the name is what
    precedes the first '(' and the quantity is read from the text between
    that '(' and the last ')'. *)
Lemma parse_id_name_qty_first_open_last_close id_part rest nm_part qty_part after :
  PyStr.contains ":" id_part = false ->
  PyStr.strip rest = nm_part +:+ String "(" (qty_part +:+ String ")" after) ->
  PyStr.contains "(" nm_part = false ->
  PyStr.contains ")" after = false ->
  parse_id_name_qty (id_part +:+ String ":" rest)
  = match PyStr.int (PyStr.strip qty_part) with
    | Some q => Some (PyStr.upper (PyStr.strip id_part), PyStr.strip nm_part, q)
    | None => None
    end.
Proof.
  intros Hid Hrest Hnm Hafter. unfold parse_id_name_qty.
  rewrite (colon_shape_guard _ _ _ _ _ Hrest). cbn [andb].
  rewrite (split_first _ _ _ Hid). cbn [hd tl]. rewrite join_split, Hrest.
  rewrite (find_first _ _ _ Hnm).
  replace (nm_part +:+ String "(" (qty_part +:+ String ")" after))
    with ((nm_part +:+ String "(" qty_part) +:+ String ")" after)
    by apply str_app_assoc.
  rewrite (rfind_last _ _ _ Hafter).
  replace ((nm_part +:+ String "(" qty_part) +:+ String ")" after)
    with (nm_part +:+ String "(" (qty_part +:+ String ")" after))
    by (symmetry; apply str_app_assoc).
  pose proof (len_nonneg nm_part) as L1.
  pose proof (len_nonneg (nm_part +:+ String "(" qty_part)) as L2.
  assert (L3 : PyStr.len (nm_part +:+ String "(" qty_part) > PyStr.len nm_part).
  { unfold PyStr.len. rewrite length_append. simpl. lia. }
  destruct (Z.eqb_spec (PyStr.len nm_part) (-1)); [lia|].
  destruct (Z.eqb_spec (PyStr.len (nm_part +:+ String "(" qty_part)) (-1)); [lia|].
  rewrite (proj2 (Z.gtb_gt _ _) L3). cbn [negb andb].
  rewrite take_prefix, slice_middle. reflexivity.
Qed.

(** On a line whose quantity text holds no further '(', the first '(' is
    the one of the last pair: the program and the specification's wording
    agree. *)
Lemma parse_id_name_qty_single_pair id_part rest nm_part qty_part after :
  PyStr.contains ":" id_part = false ->
  PyStr.strip rest = nm_part +:+ String "(" (qty_part +:+ String ")" after) ->
  PyStr.contains "(" nm_part = false ->
  PyStr.contains "(" qty_part = false ->
  PyStr.contains ")" after = false ->
  parse_id_name_qty_spec (id_part +:+ String ":" rest)
  = parse_id_name_qty (id_part +:+ String ":" rest).
Proof.
  intros Hid Hrest Hnm Hqty Hafter.
  rewrite (parse_id_name_qty_first_open_last_close _ _ _ _ _ Hid Hrest Hnm Hafter).
  unfold parse_id_name_qty_spec.
  rewrite (colon_shape_guard _ _ _ _ _ Hrest). cbn [andb].
  rewrite (split_first _ _ _ Hid). cbn [hd tl]. rewrite join_split, Hrest.
  replace (nm_part +:+ String "(" (qty_part +:+ String ")" after))
    with ((nm_part +:+ String "(" qty_part) +:+ String ")" after)
    by apply str_app_assoc.
  rewrite (rfind_last _ _ _ Hafter), take_prefix, (rfind_last _ _ _ Hqty).
  replace ((nm_part +:+ String "(" qty_part) +:+ String ")" after)
    with (nm_part +:+ String "(" (qty_part +:+ String ")" after))
    by (symmetry; apply str_app_assoc).
  pose proof (len_nonneg nm_part) as L1.
  pose proof (len_nonneg (nm_part +:+ String "(" qty_part)) as L2.
  destruct (Z.eqb_spec (PyStr.len nm_part) (-1)); [lia|].
  destruct (Z.eqb_spec (PyStr.len (nm_part +:+ String "(" qty_part)) (-1)); [lia|].
  cbn [negb andb]. rewrite take_prefix, slice_middle. reflexivity.
Qed.

End ColonShape.

(** C8.  The "ID: NAME (QTY)" shape.  [import_txt] splits at the first
    ':' and takes the text from the first '(' of the remainder to its last
    ')' as the quantity ([parse_id_name_qty_first_open_last_close]); on a
    line with one pair that is the last pair
    ([parse_id_name_qty_single_pair]).  For the line
    "A1: Resistor (10k) (5)", which [export_txt] writes for a drawer A1
    named "Resistor (10k)" holding 5, that text is "10k) (5", [int]
    raises, the comma-separated parser finds one field, and the line is
    skipped: nothing is written.  Taking the last pair gives the name
    "Resistor (10k)" and the quantity 5. *)
Theorem import_txt_last_parenthesis_pair_missed :
  let line := "A1: Resistor (10k) (5)" in
  export_txt_line "A1" {| name := "Resistor (10k)"; qty := 5 |} = line /\
  parse_id_name_qty_spec line = Some ("A1", "Resistor (10k)", 5) /\
  parse_id_name_qty line = None /\
  fields line = [line] /\
  import_txt "Default" [line] demo_store = (Ret true, demo_store) /\
  parse_id_name_qty "A1: Resistor (5)" = Some ("A1", "Resistor", 5) /\
  parse_id_name_qty_spec "A1: Resistor (5)" = Some ("A1", "Resistor", 5).
Proof. vm_compute. repeat split. Qed.

(* ===================================================================== *)
(** * Further properties of the store, the exports and the routes        *)
(* ===================================================================== *)

(** ** Reads, writes and the cleared table *)

Section Store.

Lemma drawer_at_slot t id1 c1 id2 c2 :
  invalid_id id1 = false -> invalid_id id2 = false ->
  slot id1 c1 = slot id2 c2 -> drawer_at t id1 c1 = drawer_at t id2 c2.
Proof.
  intros V1 V2 E. unfold drawer_at. rewrite V1, V2.
  unfold slot in E. now rewrite E.
Qed.

Lemma drawer_at_upsert_other drawer_id nm q cabinet t id' cab' :
  slot id' cab' <> slot drawer_id cabinet ->
  drawer_at (upsert drawer_id nm q cabinet t) id' cab' = drawer_at t id' cab'.
Proof.
  intros N. unfold drawer_at, upsert.
  destruct (invalid_id id'); [reflexivity|].
  destruct (invalid_id drawer_id); [reflexivity|].
  rewrite lookup_insert_ne; [reflexivity|]. intros E. apply N. unfold slot. now rewrite E.
Qed.

Lemma inventory_of_empty cabinet : inventory_of cabinet ∅ = [].
Proof. unfold inventory_of, select_cabinet. rewrite map_to_list_empty. reflexivity. Qed.

Lemma select_distinct_cabinets_empty : select_distinct_cabinets ∅ = [].
Proof.
  unfold select_distinct_cabinets. rewrite map_to_list_empty. simpl.
  apply elements_empty.
Qed.

Lemma clear_inventory_healthy st :
  healthy st -> clear_inventory st = (Ret tt, set_db ∅ st).
Proof.
  intros H. unfold clear_inventory, try_except, sqlite_exec.
  now rewrite (next_fault_healthy _ H).
Qed.

Lemma get_all_cabinets_healthy st :
  healthy st ->
  get_all_cabinets st
  = (Ret (sorted (List.filter (fun c => negb (String.eqb c ""))
                              (select_distinct_cabinets (db st)))), st).
Proof.
  intros H. unfold get_all_cabinets, try_except, bind, sqlite_query.
  now rewrite (next_fault_healthy _ H).
Qed.

Lemma select_distinct_cabinets_In t c :
  In c (select_distinct_cabinets t) <-> exists row col r, t !! (c, row, col) = Some r.
Proof.
  unfold select_distinct_cabinets.
  rewrite <- list_elem_of_In, elem_of_elements, elem_of_list_to_set, list_elem_of_fmap.
  split.
  - intros ([[[c' row] col] r] & -> & I). apply elem_of_map_to_list in I.
    simpl. eauto.
  - intros (row & col & r & L). exists (c, row, col, r). split; [reflexivity|].
    now apply elem_of_map_to_list.
Qed.

End Store.

(** X1.  The read paths never raise and never write: [get_drawer],
    [get_inventory] and [get_all_cabinets] answer for every state and
    every schedule of sqlite failures, leave the table and both history
    lists as they are, and answer the empty drawer, the empty map and the
    empty list when their sqlite access fails. *)
Theorem read_paths_swallow_failures drawer_id cabinet (st : Manager) :
  (exists d st', get_drawer drawer_id cabinet st = (Ret d, st') /\
     db st' = db st /\ action_history st' = action_history st /\
     redo_stack st' = redo_stack st /\
     (hd_error (sqlite_faults st) = Some true -> d = empty_drawer)) /\
  (exists inv st', get_inventory cabinet st = (Ret inv, st') /\
     db st' = db st /\ action_history st' = action_history st /\
     redo_stack st' = redo_stack st /\
     (hd_error (sqlite_faults st) = Some true -> inv = [])) /\
  (exists l st', get_all_cabinets st = (Ret l, st') /\
     db st' = db st /\ action_history st' = action_history st /\
     redo_stack st' = redo_stack st /\
     (hd_error (sqlite_faults st) = Some true -> l = [])).
Proof.
  split; [|split].
  - unfold get_drawer. destruct (invalid_id drawer_id).
    + exists empty_drawer, st. repeat split; reflexivity.
    + unfold try_except, bind, sqlite_query, next_fault.
      destruct (sqlite_faults st) as [|[] fs] eqn:F; simpl.
      * destruct (db st !! _); eexists _, _; (split; [reflexivity|]);
          repeat split; discriminate.
      * eexists _, _; (split; [reflexivity|]); repeat split; reflexivity.
      * destruct (db st !! _); eexists _, _; (split; [reflexivity|]);
          repeat split; discriminate.
  - unfold get_inventory, try_except, bind, sqlite_query, next_fault.
    destruct (sqlite_faults st) as [|[] fs] eqn:F; simpl;
      eexists _, _; (split; [reflexivity|]); repeat split; try discriminate; reflexivity.
  - unfold get_all_cabinets, try_except, bind, sqlite_query, next_fault.
    destruct (sqlite_faults st) as [|[] fs] eqn:F; simpl;
      eexists _, _; (split; [reflexivity|]); repeat split; try discriminate; reflexivity.
Qed.

(** X2.  A write reaches exactly one row.  With a database that answers,
    after [update_drawer(drawer_id, name, qty, cabinet)] with an id of two
    characters or more and a quantity that sqlite takes, every id that
    names the same row (the same cabinet, the same first character up to
    case, the same remainder) reads as (name, qty), and every other drawer
    of every cabinet reads as before. *)
Theorem update_drawer_writes_one_row drawer_id nm q cabinet (st : Manager) :
  healthy st -> invalid_id drawer_id = false -> sqlite_integer q = true ->
  let st' := snd (update_drawer drawer_id nm q cabinet st) in
  (forall id' cab', invalid_id id' = false -> slot id' cab' = slot drawer_id cabinet ->
     reads st' id' cab' {| name := nm; qty := q |}) /\
  (forall id' cab', slot id' cab' <> slot drawer_id cabinet ->
     drawer_at (db st') id' cab' = drawer_at (db st) id' cab').
Proof.
  intros H V _ st'. subst st'. rewrite (update_drawer_healthy _ _ _ _ _ H). simpl. split.
  - intros id' cab' V' E. unfold reads. rewrite get_drawer_healthy by exact H.
    simpl. f_equal. f_equal.
    rewrite (drawer_at_slot _ id' cab' drawer_id cabinet V' V E).
    now apply drawer_at_upsert_same.
  - intros id' cab' N. now apply drawer_at_upsert_other.
Qed.

Lemma update_drawer_writes_one_row_witness :
  healthy demo_store /\ invalid_id "a1" = false /\ sqlite_integer 7 = true /\
  reads (snd (update_drawer "a1" "Nuts" 7 "Default" demo_store)) "A1" "Default"
        {| name := "Nuts"; qty := 7 |} /\
  drawer_at (db (snd (update_drawer "a1" "Nuts" 7 "Default" demo_store))) "B3" "Default"
  = {| name := "Bolts"; qty := 2 |}.
Proof.
  split; [reflexivity|]. split; [reflexivity|]. split; [reflexivity|].
  pose proof (update_drawer_writes_one_row "a1" "Nuts" 7 "Default" demo_store
                eq_refl eq_refl eq_refl) as [R F].
  split.
  - apply R; reflexivity.
  - rewrite F; [reflexivity|]. unfold slot. simpl. congruence.
Defined.

(** X3.  [clear_inventory] empties every cabinet and keeps the history. With
    a database that answers it returns normally; afterwards every drawer of
    every cabinet reads as the empty drawer, [get_inventory] answers the
    empty map for every cabinet and [get_all_cabinets] the empty list; the
    action history and the redo stack are what they were. *)
Theorem clear_inventory_empties_every_cabinet (st : Manager) :
  healthy st ->
  exists st', clear_inventory st = (Ret tt, st') /\
    (forall drawer_id cabinet, reads st' drawer_id cabinet empty_drawer) /\
    (forall cabinet, get_inventory cabinet st' = (Ret [], st')) /\
    get_all_cabinets st' = (Ret [], st') /\
    action_history st' = action_history st /\ redo_stack st' = redo_stack st.
Proof.
  intros H. exists (set_db ∅ st). split; [now apply clear_inventory_healthy|].
  assert (H' : healthy (set_db ∅ st)) by exact H.
  split; [|split; [|split; [|split; reflexivity]]].
  - intros drawer_id cabinet. unfold reads. rewrite get_drawer_healthy by exact H'.
    simpl. f_equal. f_equal. unfold drawer_at.
    destruct (invalid_id drawer_id); [reflexivity|]. now rewrite lookup_empty.
  - intros cabinet. rewrite get_inventory_healthy by exact H'. simpl.
    now rewrite inventory_of_empty.
  - rewrite get_all_cabinets_healthy by exact H'. simpl.
    now rewrite select_distinct_cabinets_empty.
Qed.

Lemma clear_inventory_empties_every_cabinet_witness :
  healthy demo_store /\
  exists st', clear_inventory demo_store = (Ret tt, st') /\
    reads st' "B3" "Default" empty_drawer.
Proof.
  split; [reflexivity|].
  destruct (clear_inventory_empties_every_cabinet demo_store eq_refl)
    as (st' & E & R & _).
  exists st'. split; [exact E|apply R].
Defined.

Lemma drawer_at_undo_table a t :
  invalid_id (a_id a) = false ->
  drawer_at (undo_table a t) (a_id a) (a_cabinet a) = undone a.
Proof.
  intros V. unfold undo_table, undone.
  destruct (a_type a); now rewrite drawer_at_upsert_same.
Qed.

(** X4.  Clearing the table does not clear the history: after
    [clear_inventory], [undo] still answers True and writes the values
    the last action recorded into the emptied table. *)
Theorem undo_after_clear_writes_recorded_values (st : Manager) (a : Action) h :
  healthy st -> action_history st = append a h -> invalid_id (a_id a) = false ->
  exists st1 st2,
    clear_inventory st = (Ret tt, st1) /\ undo st1 = (Ret true, st2) /\
    reads st2 (a_id a) (a_cabinet a) (undone a) /\
    action_history st2 = h /\ redo_stack st2 = append a (redo_stack st).
Proof.
  intros H E V. eexists _, _. split; [now apply clear_inventory_healthy|].
  assert (H' : healthy (set_db ∅ st)) by exact H.
  rewrite (undo_healthy _ h a H' E). split; [reflexivity|]. simpl.
  split; [|split; reflexivity].
  unfold reads. rewrite get_drawer_healthy by exact H. simpl. f_equal. f_equal.
  now apply drawer_at_undo_table.
Qed.

Lemma undo_after_clear_writes_recorded_values_witness :
  exists st1 st2,
    clear_inventory (set_action_history [sample_action] demo_store) = (Ret tt, st1) /\
    undo st1 = (Ret true, st2) /\
    reads st2 "B3" "Default" {| name := "Bolts"; qty := 2 |}.
Proof.
  destruct (undo_after_clear_writes_recorded_values
              (set_action_history [sample_action] demo_store) sample_action []
              eq_refl eq_refl eq_refl) as (st1 & st2 & C & U & R & _).
  exists st1, st2. auto.
Defined.

(** X5.  [clear_inventory] raises when sqlite fails, leaving every row and
    both history lists; the route /clear answers 500 then, and 302 when
    the table was emptied. *)
Theorem clear_failure_leaves_table (st : Manager) (fs : list bool) :
  sqlite_faults st = true :: fs ->
  exists st', clear_inventory st = (Raise SqliteError, st') /\
    App.clear st = (Ret 500, st') /\
    db st' = db st /\ action_history st' = action_history st /\
    redo_stack st' = redo_stack st.
Proof.
  intros F. exists (set_sqlite_faults fs st).
  unfold App.clear, clear_inventory, try_except, bind, sqlite_exec, next_fault.
  rewrite F. simpl. repeat split; reflexivity.
Qed.

Lemma clear_failure_leaves_table_witness :
  exists st', clear_inventory (set_sqlite_faults [true] demo_store) = (Raise SqliteError, st') /\
    db st' = db demo_store.
Proof.
  destruct (clear_failure_leaves_table (set_sqlite_faults [true] demo_store) [] eq_refl)
    as (st' & C & _ & D & _).
  exists st'. auto.
Defined.

(** X6.  A failed [undo] loses the action.  When the write of [undo] fails,
    [undo] answers False; the action has left the history and is not put
    on the redo stack, and no row has changed. *)
Theorem failed_undo_drops_action (st : Manager) (a : Action) h fs :
  action_history st = append a h -> invalid_id (a_id a) = false ->
  sqlite_faults st = true :: fs ->
  exists st', undo st = (Ret false, st') /\
    db st' = db st /\ action_history st' = h /\ redo_stack st' = redo_stack st.
Proof.
  intros E V F. unfold undo. rewrite E, pop_append.
  unfold try_except, bind at 1, _update_drawer_in_db. rewrite V.
  unfold sqlite_exec, next_fault.
  destruct (a_type a); cbn [sqlite_faults set_action_history]; rewrite F;
    eexists; repeat split; reflexivity.
Qed.

Lemma failed_undo_drops_action_witness :
  exists st', undo (set_sqlite_faults [true] (set_action_history [sample_action] demo_store))
              = (Ret false, st') /\
    action_history st' = [] /\ redo_stack st' = [].
Proof.
  destruct (failed_undo_drops_action
              (set_sqlite_faults [true] (set_action_history [sample_action] demo_store))
              sample_action [] [] eq_refl eq_refl eq_refl) as (st' & U & _ & Hh & Hr).
  exists st'. auto.
Defined.

(** X7.  A failed [redo] loses the action in the same way: it answers
    False, the action has left the redo stack and is not put back on the
    history, and no row has changed. *)
Theorem failed_redo_drops_action (st : Manager) (a : Action) r fs :
  redo_stack st = append a r -> invalid_id (a_id a) = false ->
  sqlite_faults st = true :: fs ->
  exists st', redo st = (Ret false, st') /\
    db st' = db st /\ redo_stack st' = r /\ action_history st' = action_history st.
Proof.
  intros E V F. unfold redo. rewrite E, pop_append.
  unfold try_except, bind at 1, _update_drawer_in_db. rewrite V.
  unfold sqlite_exec, next_fault. cbn [sqlite_faults set_redo_stack]. rewrite F.
  eexists; repeat split; reflexivity.
Qed.

Lemma failed_redo_drops_action_witness :
  exists st', redo (set_sqlite_faults [true] (set_redo_stack [sample_action] demo_store))
              = (Ret false, st') /\
    action_history st' = [] /\ redo_stack st' = [].
Proof.
  destruct (failed_redo_drops_action
              (set_sqlite_faults [true] (set_redo_stack [sample_action] demo_store))
              sample_action [] [] eq_refl eq_refl eq_refl) as (st' & U & _ & Hr & Hh).
  exists st'. auto.
Defined.



(** X9.  [get_all_cabinets], with a database that answers, lists exactly
    the non-empty cabinet names that hold a row, each once, in ascending
    order; the state is left as it is. *)
Theorem get_all_cabinets_lists_stored_cabinets (st : Manager) :
  healthy st ->
  exists l, get_all_cabinets st = (Ret l, st) /\
    StronglySorted str_le l /\ NoDup l /\
    forall c, In c l <-> c <> "" /\ exists row col r, db st !! (c, row, col) = Some r.
Proof.
  intros H. eexists. split; [now apply get_all_cabinets_healthy|].
  set (raw := List.filter _ _).
  assert (P : sorted raw ≡ₚ raw) by apply merge_sort_Permutation.
  split; [|split].
  - apply Sorted_StronglySorted; [apply _|]. apply Sorted_merge_sort, _.
  - rewrite P. subst raw. apply NoDup_ListNoDup, List.NoDup_filter, NoDup_ListNoDup.
    unfold select_distinct_cabinets. apply NoDup_elements.
  - intros c. rewrite <- list_elem_of_In, P, list_elem_of_In. subst raw.
    rewrite List.filter_In, select_distinct_cabinets_In, negb_true_iff.
    destruct (String.eqb_spec c ""); split; intros [A B]; split; auto; congruence.
Qed.

Lemma get_all_cabinets_lists_stored_cabinets_witness :
  exists l, get_all_cabinets demo_store = (Ret l, demo_store) /\ In "Default" l.
Proof.
  destruct (get_all_cabinets_lists_stored_cabinets demo_store eq_refl)
    as (l & E & _ & _ & I).
  exists l. split; [exact E|]. apply I. split; [discriminate|].
  exists "B", "3", {| col_name := Some "Bolts"; col_qty := Some 2 |}. reflexivity.
Defined.

Section Padding.

Lemma dict_mem_app k (d e : PyDict.dict Drawer) :
  PyDict.mem k (d ++ e) = PyDict.mem k d || PyDict.mem k e.
Proof.
  unfold PyDict.mem. induction d as [|[k0 v0] r IH]; simpl; [reflexivity|].
  destruct (String.eqb k0 k); [reflexivity|exact IH].
Qed.

Lemma fill_all_keys keys : forall inv,
  List.NoDup keys ->
  PyDict.keys (fold_left fill_missing keys inv)
  = PyDict.keys inv ++ List.filter (fun k => negb (PyDict.mem k inv)) keys.
Proof.
  induction keys as [|k keys IH]; intros inv N; simpl.
  - now rewrite app_nil_r.
  - inversion N as [|? ? Nk N']; subst. rewrite (IH _ N'). unfold fill_missing.
    destruct (PyDict.mem k inv) eqn:M; simpl; [reflexivity|].
    unfold PyDict.mem in M. destruct (PyDict.get k inv) eqn:G; [discriminate|].
    rewrite (dict_set_absent _ _ _ G). unfold PyDict.keys at 1. rewrite map_app.
    simpl. rewrite <- app_assoc. simpl. f_equal. f_equal.
    apply List.filter_ext_in. intros k' I. rewrite dict_mem_app.
    unfold PyDict.mem at 2. simpl.
    destruct (String.eqb_spec k k') as [->|]; [contradiction|]. now rewrite orb_false_r.
Qed.

Lemma fill_all_present keys : forall inv,
  (forall k, In k keys -> PyDict.mem k inv = true) ->
  fold_left fill_missing keys inv = inv.
Proof.
  induction keys as [|k keys IH]; intros inv A; simpl; [reflexivity|].
  unfold fill_missing at 2. rewrite (A k (or_introl eq_refl)).
  apply IH. intros k' I. apply A. now right.
Qed.

Lemma pad_inventory_mem inv k :
  In k generate_all_drawer_keys -> PyDict.mem k (pad_inventory inv) = true.
Proof.
  intros I. apply dict_mem_get. rewrite pad_inventory_get.
  apply existsb_eqb_In in I. rewrite I. destruct (PyDict.get k inv); discriminate.
Qed.

End Padding.

(** X10.  The order of a padded inventory: the keys the map had, in their
    order, followed by the canonical keys it lacked, in the order of
    [generate_all_drawer_keys].  This is the order in which the exports
    and the index page list the drawers. *)
Theorem pad_inventory_keys_order (m : PyDict.dict Drawer) :
  PyDict.keys (pad_inventory m)
  = PyDict.keys m
    ++ List.filter (fun k => negb (PyDict.mem k m)) generate_all_drawer_keys.
Proof.
  rewrite pad_inventory_fold. apply fill_all_keys. apply NoDup_ListNoDup, all_keys_NoDup.
Qed.

(** X11.  Padding is idempotent, and a padded inventory leaves no key
    available: [sorted(set(all_keys) - used_keys)] is empty when the used
    keys are those of a padded map. *)
Theorem pad_inventory_idempotent (m : PyDict.dict Drawer) :
  pad_inventory (pad_inventory m) = pad_inventory m /\
  available_keys (pad_inventory m) = [].
Proof.
  split.
  - rewrite (pad_inventory_fold (pad_inventory m)). apply fill_all_present.
    intros k I. now apply pad_inventory_mem.
  - apply none_available. intros k I. now apply pad_inventory_mem.
Qed.

(** X12.  The available keys are the canonical keys that the inventory does
    not hold, each once, in ascending order. *)
Theorem available_keys_ascending_unused (inv : PyDict.dict Drawer) :
  StronglySorted str_le (available_keys inv) /\ List.NoDup (available_keys inv) /\
  forall k, In k (available_keys inv)
            <-> In k generate_all_drawer_keys /\ PyDict.get k inv = None.
Proof.
  rewrite available_keys_filter. split; [|split].
  - apply StronglySorted_filter, all_keys_sorted.
  - apply List.NoDup_filter, NoDup_ListNoDup, all_keys_NoDup.
  - intros k. rewrite List.filter_In, negb_true_iff. unfold PyDict.mem.
    destruct (PyDict.get k inv); split; intros [A B]; split; auto; discriminate.
Qed.

Section Decimal.

Lemma lstrip_first c s : PyStr.is_space c = false -> PyStr.lstrip (String c s) = String c s.
Proof. intros H. simpl. now rewrite H. Qed.

Lemma rstrip_no_space s : no_space s = true -> PyStr.rstrip s = s.
Proof.
  unfold no_space. induction s as [|c s IH]; simpl; [reflexivity|].
  rewrite negb_orb, andb_true_iff, negb_true_iff. intros [C R].
  rewrite (IH R), C. now destruct s.
Qed.

Lemma strip_no_space s : no_space s = true -> PyStr.strip s = s.
Proof.
  intros H. unfold PyStr.strip.
  destruct s as [|c s]; [reflexivity|].
  assert (C : PyStr.is_space c = false).
  { unfold no_space in H. simpl in H. rewrite negb_orb, andb_true_iff, negb_true_iff in H.
    tauto. }
  rewrite (lstrip_first _ _ C). now apply rstrip_no_space.
Qed.

Lemma uint_no_space u : no_space (NilEmpty.string_of_uint u) = true.
Proof.
  unfold no_space. induction u; simpl; [reflexivity|..]; exact IHu.
Qed.

Lemma digits_acc u : forall acc : positive,
  PyStr.digits (NilEmpty.string_of_uint u) (Z.pos acc) true
  = Some (Z.pos (Pos.of_uint_acc u acc)).
Proof.
  induction u; intros acc; cbn [NilEmpty.string_of_uint Pos.of_uint_acc PyStr.digits];
    [reflexivity|..];
    (change (PyStr.is_digit _) with true; cbv iota; rewrite <- IHu; f_equal;
     match goal with |- context [Z.of_N ?x] =>
       let v := eval vm_compute in (Z.of_N x) in change (Z.of_N x) with v end; lia).
Qed.

Lemma digits_zero u : forall b : bool,
  u <> Decimal.Nil \/ b = true ->
  PyStr.digits (NilEmpty.string_of_uint u) 0 b = Some (Z.of_N (Pos.of_uint u)).
Proof.
  induction u; intros b H; cbn [NilEmpty.string_of_uint Pos.of_uint PyStr.digits].
  - destruct H as [H| ->]; [contradiction|reflexivity].
  - change (PyStr.is_digit _) with true. cbv iota. apply IHu. now right.
  - apply (digits_acc u 1).
  - apply (digits_acc u 2).
  - apply (digits_acc u 3).
  - apply (digits_acc u 4).
  - apply (digits_acc u 5).
  - apply (digits_acc u 6).
  - apply (digits_acc u 7).
  - apply (digits_acc u 8).
  - apply (digits_acc u 9).
Qed.

Lemma int_of_uint u :
  u <> Decimal.Nil ->
  PyStr.int (NilEmpty.string_of_uint u) = Some (Z.of_N (Pos.of_uint u)).
Proof.
  intros N. unfold PyStr.int. rewrite (strip_no_space _ (uint_no_space u)).
  rewrite <- (digits_zero u false) by now left.
  destruct u; [contradiction|..]; reflexivity.
Qed.

Lemma str_of_pos p :
  NilZero.string_of_uint (Pos.to_uint p) = NilEmpty.string_of_uint (Pos.to_uint p).
Proof.
  pose proof (Unsigned.to_uint_nonnil p) as N.
  destruct (Pos.to_uint p); [contradiction|..]; reflexivity.
Qed.

End Decimal.

Lemma int_str_of_int (n : Z) : PyStr.int (str_of_int n) = Some n.
Proof.
  unfold str_of_int. destruct n as [|p|p]; [reflexivity|..];
    cbn [Z.to_int NilZero.string_of_int]; rewrite str_of_pos.
  - rewrite int_of_uint by apply Unsigned.to_uint_nonnil.
    now rewrite DecimalPos.Unsigned.of_to.
  - unfold PyStr.int.
    assert (S : no_space (String "-" (NilEmpty.string_of_uint (Pos.to_uint p))) = true)
      by apply (uint_no_space (Pos.to_uint p)).
    rewrite (strip_no_space _ S).
    rewrite (digits_zero (Pos.to_uint p) false) by (left; apply Unsigned.to_uint_nonnil).
    now rewrite DecimalPos.Unsigned.of_to.
Qed.

Lemma str_of_int_no_space n : no_space (str_of_int n) = true.
Proof.
  unfold str_of_int. destruct n as [|p|p]; [reflexivity|..];
    cbn [Z.to_int NilZero.string_of_int]; rewrite str_of_pos.
  - apply uint_no_space.
  - apply (uint_no_space (Pos.to_uint p)).
Qed.


Section Stripping.

Lemma lstrip_app_nonspace x c y :
  PyStr.is_space c = false ->
  PyStr.lstrip (x +:+ String c y) = PyStr.lstrip x +:+ String c y.
Proof.
  intros C. induction x as [|a x IH].
  - simpl. now rewrite C.
  - rewrite str_app_cons. simpl. destruct (PyStr.is_space a); [exact IH|reflexivity].
Qed.

Lemma lstrip_idem s : PyStr.lstrip (PyStr.lstrip s) = PyStr.lstrip s.
Proof.
  induction s as [|c s IH]; simpl; [reflexivity|].
  destruct (PyStr.is_space c) eqn:C; [exact IH|]. simpl. now rewrite C.
Qed.

Lemma rstrip_cons c w :
  PyStr.rstrip w = w -> w <> "" -> PyStr.rstrip (String c w) = String c w.
Proof. intros E N. simpl. rewrite E. destruct w; [contradiction|reflexivity]. Qed.

Lemma rstrip_app_r x y :
  PyStr.rstrip y = y -> y <> "" -> PyStr.rstrip (x +:+ y) = x +:+ y.
Proof.
  intros E N. induction x as [|a x IH]; [exact E|].
  rewrite str_app_cons. apply rstrip_cons; [exact IH|].
  destruct x; [exact N|discriminate].
Qed.

Lemma rstrip_app_space x : PyStr.rstrip (x +:+ " ") = PyStr.rstrip x.
Proof.
  induction x as [|a x IH]; [reflexivity|].
  rewrite str_app_cons. simpl. now rewrite IH.
Qed.

Lemma strip_app_space x : PyStr.strip (x +:+ " ") = PyStr.strip x.
Proof.
  unfold PyStr.strip. induction x as [|a x IH]; [reflexivity|].
  rewrite str_app_cons. simpl. destruct (PyStr.is_space a); [exact IH|].
  apply (rstrip_app_space (String a x)).
Qed.

Lemma strip_lstrip s : PyStr.strip (PyStr.lstrip s) = PyStr.strip s.
Proof. unfold PyStr.strip. now rewrite lstrip_idem. Qed.

Lemma contains_lstrip_false ch s :
  PyStr.contains ch s = false -> PyStr.contains ch (PyStr.lstrip s) = false.
Proof.
  intros H. destruct (PyStr.contains ch (PyStr.lstrip s)) eqn:E; [|reflexivity].
  apply contains_lstrip in E. congruence.
Qed.

Lemma rstrip_close s : PyStr.rstrip (s +:+ ")") = s +:+ ")".
Proof. apply rstrip_app_r; [reflexivity|discriminate]. Qed.

Lemma app_close_nonempty s : s +:+ ")" <> "".
Proof. destruct s; discriminate. Qed.

Lemma export_txt_line_shape key val :
  export_txt_line key val
  = key +:+ String ":" (String " " (name val +:+
        String " " (String "(" (str_of_int (qty val) +:+ ")")))).
Proof. reflexivity. Qed.

Lemma strip_export_txt_line key val :
  PyStr.strip (export_txt_line key val)
  = PyStr.lstrip key +:+ String ":" (String " " (name val +:+
        String " " (String "(" (str_of_int (qty val) +:+ ")")))).
Proof.
  rewrite export_txt_line_shape. unfold PyStr.strip.
  rewrite lstrip_app_nonspace by reflexivity.
  apply rstrip_app_r; [|discriminate].
  apply rstrip_cons; [|discriminate]. apply rstrip_cons.
  - apply rstrip_app_r; [|discriminate].
    apply rstrip_cons; [|discriminate].
    apply rstrip_cons; [apply rstrip_close|apply app_close_nonempty].
  - destruct (name val); discriminate.
Qed.

End Stripping.

Lemma parse_exported_line (key : string) (val : Drawer) :
  PyStr.contains ":" key = false -> PyStr.contains "(" (name val) = false ->
  parse_id_name_qty (PyStr.strip (export_txt_line key val))
  = Some (PyStr.upper (PyStr.strip key), PyStr.strip (name val), qty val).
Proof.
  intros Hk Hn. rewrite strip_export_txt_line.
  rewrite (parse_id_name_qty_first_open_last_close (PyStr.lstrip key) _
             (PyStr.lstrip (name val +:+ " ")) (str_of_int (qty val)) "").
  - rewrite (strip_no_space _ (str_of_int_no_space _)), int_str_of_int.
    now rewrite !strip_lstrip, strip_app_space.
  - now apply contains_lstrip_false.
  - unfold PyStr.strip at 1. cbn [PyStr.lstrip]. change (PyStr.is_space " ") with true.
    cbv iota.
    replace (name val +:+ String " " (String "(" (str_of_int (qty val) +:+ ")")))
      with ((name val +:+ " ") +:+ String "(" (str_of_int (qty val) +:+ ")"))
      by apply str_app_assoc.
    rewrite lstrip_app_nonspace by reflexivity.
    apply rstrip_app_r; [|discriminate].
    apply rstrip_cons; [apply rstrip_close|apply app_close_nonempty].
  - apply contains_lstrip_false. rewrite contains_app, Hn. reflexivity.
  - reflexivity.
Qed.

Section RoundTrip.

Lemma for_each_map {A B} (f : A -> B) (body : B -> M unit) l :
  for_each (map f l) body = for_each l (fun x => body (f x)).
Proof. induction l as [|x l IH]; simpl; [reflexivity|]. now rewrite IH. Qed.

Lemma update_drawer_keeps_healthy drawer_id nm q cabinet st :
  healthy st -> healthy (snd (update_drawer drawer_id nm q cabinet st)).
Proof. intros H. now rewrite (update_drawer_healthy _ _ _ _ _ H). Qed.

Lemma for_each_writes {A} (body : A -> M unit) (w : A -> Write) l : forall st,
  healthy st ->
  (forall x s, In x l -> healthy s ->
     body x s = update_drawer (w x).1.1.1 (w x).1.1.2 (w x).1.2 (w x).2 s) ->
  for_each l body st = update_all (map w l) st.
Proof.
  induction l as [|x l IH]; intros st H B; simpl; [reflexivity|].
  destruct (w x) as [[[i n] q] c] eqn:W. unfold bind.
  rewrite (B x st (or_introl eq_refl) H), W. simpl.
  pose proof (update_drawer_keeps_healthy i n q c st H) as H1.
  rewrite (update_drawer_healthy _ _ _ _ _ H) in *. simpl in H1.
  apply IH; [exact H1|]. intros y s I. apply B. now right.
Qed.

Lemma table_after_other ws : forall t id c,
  (forall w, In w ws -> slot_of w <> slot id c) ->
  drawer_at (table_after ws t) id c = drawer_at t id c.
Proof.
  induction ws as [|[[[i n] q] c'] r IH]; intros t id c N; simpl; [reflexivity|].
  rewrite IH by (intros w I; apply N; now right).
  apply drawer_at_upsert_other. intros E.
  apply (N (i, n, q, c') (or_introl eq_refl)). unfold slot_of. simpl. now rewrite E.
Qed.

Lemma table_after_reads ws : forall t i n q c,
  List.NoDup (map slot_of ws) -> In (i, n, q, c) ws -> invalid_id i = false ->
  drawer_at (table_after ws t) i c = {| name := n; qty := q |}.
Proof.
  induction ws as [|[[[i0 n0] q0] c0] r IH]; intros t i n q c D I V; [contradiction|].
  simpl in D. inversion D as [|? ? D1 D2]; subst. simpl. destruct I as [E|I].
  - inversion E; subst. rewrite table_after_other.
    + now apply drawer_at_upsert_same.
    + intros w Iw Ew. apply D1. apply in_map_iff. exists w. split; [|exact Iw].
      rewrite Ew. reflexivity.
  - now apply IH.
Qed.

Lemma slot_inj k k' c :
  invalid_id k = false -> invalid_id k' = false ->
  PyStr.upper k = k -> PyStr.upper k' = k' -> slot k c = slot k' c -> k = k'.
Proof.
  intros V V' U U' E. apply invalid_id_false in V, V'.
  destruct k as [|a r]; [simpl in V; lia|]. destruct k' as [|a' r']; [simpl in V'; lia|].
  unfold slot in E. simpl in *. inversion U as [[Ua Ur]]. inversion U' as [[Ua' Ur']].
  rewrite Ua, Ua' in *. rewrite Ur, Ur' in *. inversion E. reflexivity.
Qed.

Lemma json_safe_spec k d :
  json_safe (k, d) = true ->
  invalid_id k = false /\ PyStr.upper k = k /\ PyStr.strip (name d) = name d.
Proof.
  unfold json_safe. simpl. rewrite !andb_true_iff, negb_true_iff, !String.eqb_eq. tauto.
Qed.

Lemma csv_safe_spec k d :
  csv_safe (k, d) = true -> json_safe (k, d) = true /\ PyStr.strip k = k.
Proof. unfold csv_safe. simpl. now rewrite andb_true_iff, String.eqb_eq. Qed.


Lemma forallb_weaken {A} (p p' : A -> bool) l :
  (forall x, p x = true -> p' x = true) -> forallb p l = true -> forallb p' l = true.
Proof. rewrite !forallb_forall. auto. Qed.

(** The calls of an import that puts every entry of [inv] back: each
    entry is read as written, one action is recorded for each. *)
Lemma writes_restore (inv : PyDict.dict Drawer) cabinet st :
  healthy st -> List.NoDup (PyDict.keys inv) -> forallb json_safe inv = true ->
  exists st', update_all (map (write_of cabinet) inv) st = (Ret tt, st') /\
    healthy st' /\
    (forall k d, PyDict.get k inv = Some d -> reads st' k cabinet d) /\
    length (action_history st') = (length (action_history st) + length inv)%nat.
Proof.
  intros H D S. rewrite (update_all_healthy _ _ H). eexists. split; [reflexivity|].
  split; [reflexivity|]. split.
  - intros k d G. apply dict_get_Some_In in G.
    assert (Sk : json_safe (k, d) = true) by (rewrite forallb_forall in S; now apply S).
    apply json_safe_spec in Sk. destruct Sk as (V & _ & _).
    unfold reads. rewrite get_drawer_healthy by reflexivity. cbn [db]. f_equal. f_equal.
    rewrite (table_after_reads _ _ k (name d) (qty d) cabinet).
    + now destruct d.
    + replace (map slot_of (map (write_of cabinet) inv))
        with (map (fun k => slot k cabinet) (PyDict.keys inv))
        by (unfold PyDict.keys; rewrite !map_map; reflexivity).
      apply NoDup_ListNoDup, NoDup_fmap_2_strong; [|now apply NoDup_ListNoDup].
      intros x y Ix Iy E. apply list_elem_of_In, in_map_iff in Ix, Iy.
      destruct Ix as ([x' dx] & <- & Ix). destruct Iy as ([y' dy] & <- & Iy).
      rewrite forallb_forall in S.
      destruct (json_safe_spec _ _ (S _ Ix)) as (Vx & Ux & _).
      destruct (json_safe_spec _ _ (S _ Iy)) as (Vy & Uy & _).
      simpl in *. eapply slot_inj; eauto.
    + apply in_map_iff. exists (k, d). split; [reflexivity|exact G].
    + exact V.
  - cbn [action_history]. rewrite length_app, length_actions_of, length_map. reflexivity.
Qed.

Lemma padded_NoDup cabinet t :
  List.NoDup (PyDict.keys (pad_inventory (inventory_of cabinet t))).
Proof. apply pad_inventory_NoDup, inventory_NoDup. Qed.

Lemma import_json_entry_healthy cabinet k d st :
  healthy st -> json_safe (k, d) = true ->
  import_json_entry cabinet k {| j_name := Some (name d); j_qty := Some (inl (qty d)) |} st
  = update_drawer k (name d) (qty d) cabinet st.
Proof.
  intros H S. apply json_safe_spec in S. destruct S as (_ & U & N).
  unfold import_json_entry, try_except, bind. cbn [j_name j_qty]. unfold ret at 1.
  change (default "" (Some (name d))) with (name d). rewrite U, N.
  now rewrite (update_drawer_healthy _ _ _ _ _ H).
Qed.

Lemma import_csv_row_healthy cabinet k d st :
  healthy st -> csv_safe (k, d) = true ->
  import_csv_row cabinet 0 1 2 [k; name d; str_of_int (qty d)] st
  = update_drawer k (name d) (qty d) cabinet st.
Proof.
  intros H S. apply csv_safe_spec in S. destruct S as (S & K).
  apply json_safe_spec in S. destruct S as (_ & U & N).
  unfold import_csv_row, try_except, bind, py_int, item.
  cbv beta iota zeta delta
      [length Z.of_nat Z.to_nat Pos.of_succ_nat Pos.succ Pos.to_nat Pos.iter_op
       Z.gtb Z.eqb Z.compare Pos.compare Pos.compare_cont Nat.add negb andb nth
       CompOpp Pos.eqb].
  rewrite (strip_no_space _ (str_of_int_no_space _)), int_str_of_int.
  unfold ret. rewrite K, U, N. now rewrite (update_drawer_healthy _ _ _ _ _ H).
Qed.


End RoundTrip.

Section ExportedLine.

Lemma upper_nonempty s : s <> "" -> PyStr.upper s <> "".
Proof. destruct s; [contradiction|discriminate]. Qed.

Lemma import_txt_line_exported cabinet key val st :
  PyStr.contains ":" key = false -> PyStr.contains "(" (name val) = false ->
  PyStr.strip key <> "" ->
  import_txt_line cabinet (export_txt_line key val) st
  = update_drawer (PyStr.upper (PyStr.strip key)) (PyStr.strip (name val)) (qty val)
                  cabinet st.
Proof.
  intros C P N. unfold import_txt_line.
  rewrite (parse_exported_line _ _ C P).
  destruct (String.eqb_spec (PyStr.strip (export_txt_line key val)) "") as [E|_].
  - rewrite strip_export_txt_line in E. destruct (PyStr.lstrip key); discriminate.
  - unfold bind, ret.
    destruct (String.eqb_spec (PyStr.upper (PyStr.strip key)) "") as [E|_];
      [now apply upper_nonempty in E|reflexivity].
Qed.

End ExportedLine.

(** X14.  What [import_txt] makes of a line that [export_txt] wrote.  When
    the key holds no ':' and the name holds no '(', the first attempt of
    [import_txt] reads the key (stripped, uppercased), the name (stripped)
    and the quantity of the exported drawer, whatever the quantity; and
    when the key is not blank the line is the call
    [update_drawer(key.strip().upper(), name.strip(), qty, cabinet)], for
    every state. *)
Theorem import_txt_reads_exported_line (cabinet key : string) (val : Drawer)
    (st : Manager) :
  PyStr.contains ":" key = false -> PyStr.contains "(" (name val) = false ->
  parse_id_name_qty (PyStr.strip (export_txt_line key val))
  = Some (PyStr.upper (PyStr.strip key), PyStr.strip (name val), qty val) /\
  (PyStr.strip key <> "" ->
   import_txt_line cabinet (export_txt_line key val) st
   = update_drawer (PyStr.upper (PyStr.strip key)) (PyStr.strip (name val)) (qty val)
                   cabinet st).
Proof.
  intros C P. split; [now apply parse_exported_line|].
  intros N. now apply import_txt_line_exported.
Qed.

Lemma import_txt_reads_exported_line_witness :
  parse_id_name_qty (PyStr.strip (export_txt_line "b3" {| name := " Bolts: M3 "; qty := -2 |}))
  = Some ("B3", "Bolts: M3", -2).
Proof.
  exact (proj1 (import_txt_reads_exported_line "Default" "b3"
                  {| name := " Bolts: M3 "; qty := -2 |} demo_store eq_refl eq_refl)).
Defined.

Section Restore.

Lemma import_batch_true (m : M unit) st st' :
  m st = (Ret tt, st') ->
  try_except (do _ <- m ; ret true) (fun _ => ret false) st = (Ret true, st').
Proof. intros E. unfold try_except, bind. now rewrite E. Qed.

End Restore.

(** X15.  JSON round trip.  With databases that answer: when every entry of
    the padded inventory of cabinet [c0] has a key that names a drawer and
    is uppercase, and a name without surrounding white space,
    [import_json] of what [export_json] wrote answers True and makes every
    exported key read, in the target cabinet, as it was exported; it
    records one action for every exported entry, the padded ones
    included. *)
Theorem import_json_restores_export (src dst : Manager) (c0 c : string) :
  healthy src -> healthy dst ->
  forallb json_safe (pad_inventory (inventory_of c0 (db src))) = true ->
  exists data dst',
    export_json c0 src = (Ret (Some data), src) /\
    import_json c data dst = (Ret true, dst') /\
    (forall k d, PyDict.get k (pad_inventory (inventory_of c0 (db src))) = Some d ->
                 reads dst' k c d) /\
    length (action_history dst')
    = (length (action_history dst)
       + length (pad_inventory (inventory_of c0 (db src))))%nat.
Proof.
  intros Hs Hd S. set (inv := pad_inventory (inventory_of c0 (db src))) in *.
  destruct (writes_restore inv c dst Hd (padded_NoDup _ _) S) as (dst' & W & _ & R & L).
  eexists _, dst'. split; [unfold export_json, try_except, bind;
                       rewrite (get_inventory_healthy _ _ Hs); reflexivity|].
  fold inv. split; [|split; [exact R|exact L]].
  unfold import_json. apply import_batch_true. rewrite for_each_map, <- W.
  apply for_each_writes; [exact Hd|].
  intros [k d] s I Hh. apply import_json_entry_healthy; [exact Hh|].
  rewrite forallb_forall in S. apply (S _ I).
Qed.

Lemma import_json_restores_export_witness :
  exists data dst',
    export_json "Default" demo_store = (Ret (Some data), demo_store) /\
    import_json "Spare" data demo_store = (Ret true, dst') /\
    reads dst' "B3" "Spare" {| name := "Bolts"; qty := 2 |}.
Proof.
  destruct (import_json_restores_export demo_store demo_store "Default" "Spare"
              eq_refl eq_refl) as (data & dst' & E & I & R & _).
  - vm_compute. reflexivity.
  - exists data, dst'. split; [exact E|]. split; [exact I|].
    apply R. vm_compute. reflexivity.
Defined.

(** X16.  CSV round trip.  The same for [import_csv] of the rows that
    [export_csv] wrote, header first, when in addition no key has
    surrounding white space: quantities are printed by [str] and read
    back by [int]. *)
Theorem import_csv_restores_export (src dst : Manager) (c0 c : string) :
  healthy src -> healthy dst ->
  forallb csv_safe (pad_inventory (inventory_of c0 (db src))) = true ->
  exists rows dst',
    export_csv c0 src = (Ret (Some rows), src) /\
    import_csv c rows dst = (Ret true, dst') /\
    (forall k d, PyDict.get k (pad_inventory (inventory_of c0 (db src))) = Some d ->
                 reads dst' k c d) /\
    length (action_history dst')
    = (length (action_history dst)
       + length (pad_inventory (inventory_of c0 (db src))))%nat.
Proof.
  intros Hs Hd S. set (inv := pad_inventory (inventory_of c0 (db src))) in *.
  assert (Sj : forallb json_safe inv = true).
  { revert S. apply forallb_weaken. intros [k d] Sk. apply csv_safe_spec in Sk. exact (proj1 Sk). }
  destruct (writes_restore inv c dst Hd (padded_NoDup _ _) Sj) as (dst' & W & _ & R & L).
  eexists _, dst'. split; [unfold export_csv, try_except, bind;
                       rewrite (get_inventory_healthy _ _ Hs); reflexivity|].
  fold inv. split; [|split; [exact R|exact L]].
  unfold import_csv. cbn [hd_error tl].
  change (csv_columns (Some ["ID"; "Name"; "Quantity"])) with (0, 1, 2).
  cbv iota beta. apply import_batch_true. rewrite for_each_map, <- W.
  apply for_each_writes; [exact Hd|].
  intros [k d] s I Hh. apply import_csv_row_healthy; [exact Hh|].
  rewrite forallb_forall in S. apply (S _ I).
Qed.

Lemma import_csv_restores_export_witness :
  exists rows dst',
    export_csv "Default" demo_store = (Ret (Some rows), demo_store) /\
    import_csv "Spare" rows demo_store = (Ret true, dst') /\
    reads dst' "B3" "Spare" {| name := "Bolts"; qty := 2 |}.
Proof.
  destruct (import_csv_restores_export demo_store demo_store "Default" "Spare"
              eq_refl eq_refl) as (rows & dst' & E & I & R & _).
  - vm_compute. reflexivity.
  - exists rows, dst'. split; [exact E|]. split; [exact I|].
    apply R. vm_compute. reflexivity.
Defined.

Section Lines.








End Lines.



Section Routes.

Lemma update_route_unfold d z nm st :
  App.int_of_json (default (App.JInt (-1)) (App.u_qty d)) = App.IntOk z -> 0 <= z ->
  default (App.JStr "") (App.u_name d) = App.JStr nm ->
  default "" (App.u_id d) <> "" ->
  App.update (App.Object d) st
  = try_except
      (do _ <- update_drawer (default "" (App.u_id d)) (PyStr.strip nm) z
                 (default "Default" (App.u_cabinet d)) ;
       ret 200)
      (fun _ => ret 500) st.
Proof.
  intros Q P N I. unfold App.update. rewrite Q, N.
  destruct (Z.ltb_spec z 0); [lia|].
  destruct (String.eqb_spec (default "" (App.u_id d)) ""); [contradiction|reflexivity].
Qed.

Lemma update_drawer_returns drawer_id nm q cabinet st :
  fst (update_drawer drawer_id nm q cabinet st) = Ret tt \/
  fst (update_drawer drawer_id nm q cabinet st) = Raise SqliteError.
Proof.
  rewrite update_drawer_unfold. destruct (get_drawer drawer_id cabinet st) as [o st1].
  cbv zeta. unfold _update_drawer_in_db. destruct (invalid_id drawer_id); [now left|].
  unfold sqlite_exec. destruct (next_fault _) as [[] s]; simpl; auto.
Qed.

Lemma dict_get_app_None {V} k (d e : PyDict.dict V) :
  PyDict.get k (d ++ e) = None <-> PyDict.get k d = None /\ PyDict.get k e = None.
Proof.
  induction d as [|[k0 v0] r IH]; simpl; [tauto|].
  destruct (String.eqb k0 k); [split; [discriminate|tauto]|exact IH].
Qed.

(** Collecting the entries that pass a test into a new dict keeps them
    in their order. *)
Lemma fold_set_filter {V} (p : string -> V -> bool) (l : PyDict.dict V) : forall acc,
  List.NoDup (PyDict.keys l) ->
  (forall k, In k (PyDict.keys l) -> PyDict.get k acc = None) ->
  fold_left (fun filtered '(key, value) =>
               if p key value then PyDict.set key value filtered else filtered) l acc
  = acc ++ List.filter (fun '(key, value) => p key value) l.
Proof.
  induction l as [|[k v] l IH]; intros acc D F; simpl; [now rewrite app_nil_r|].
  simpl in D. inversion D as [|? ? D1 D2]; subst.
  destruct (p k v).
  - rewrite IH; [|exact D2|].
    + rewrite (dict_set_absent k v acc) by (apply F; now left).
      now rewrite <- app_assoc.
    + intros k' I. rewrite (dict_set_absent k v acc) by (apply F; now left).
      apply dict_get_app_None. split; [apply F; now right|]. simpl.
      destruct (String.eqb_spec k k') as [->|]; [contradiction|reflexivity].
  - apply IH; [exact D2|]. intros k' I. apply F. now right.
Qed.

Lemma filter_all {A} (p : A -> bool) l :
  (forall x, p x = true) -> List.filter p l = l.
Proof.
  intros T. induction l as [|x l IH]; simpl; [reflexivity|]. now rewrite T, IH.
Qed.

Lemma is_in_empty s : PyStr.is_in "" s = true.
Proof. destruct s; reflexivity. Qed.



End Routes.

(** X18.  The route /update writes nothing unless the request is sound.
    For every body (a JSON object whose 'id' and 'cabinet', where present,
    are strings and whose 'name' and 'qty' are any JSON value, or any value
    that is not an object) and every state, either the answer is 400 or
    500 and the state is untouched, or the body named a drawer id, a name
    that is a string and a quantity that [int] turns into an integer that
    is not negative; then, for a quantity that sqlite takes, the state is
    the one [update_drawer] leaves for that id (as given, not uppercased),
    the stripped name, that quantity and the cabinet (by default
    'Default'), and the answer is 200, or 500 when the write raised. *)
Theorem update_route_rejects_or_writes (body : App.Body) (st : Manager) :
  App.update body st = (Ret 400, st) \/
  App.update body st = (Ret 500, st) \/
  exists d z nm,
    body = App.Object d /\
    App.int_of_json (default (App.JInt (-1)) (App.u_qty d)) = App.IntOk z /\ 0 <= z /\
    default (App.JStr "") (App.u_name d) = App.JStr nm /\
    default "" (App.u_id d) <> "" /\
    (sqlite_integer z = true ->
     let r := update_drawer (default "" (App.u_id d)) (PyStr.strip nm) z
                (default "Default" (App.u_cabinet d)) st in
     (fst r = Ret tt /\ App.update body st = (Ret 200, snd r)) \/
     (fst r = Raise SqliteError /\ App.update body st = (Ret 500, snd r))).
Proof.
  destruct body as [[]|d]; [right; left; reflexivity|left; reflexivity|].
  destruct (App.int_of_json (default (App.JInt (-1)) (App.u_qty d))) as [z| | |] eqn:Q;
    try (unfold App.update; rewrite Q; auto; fail).
  destruct (Z.ltb_spec z 0) as [L|L].
  { left. unfold App.update. rewrite Q. destruct (Z.ltb_spec z 0); [reflexivity|lia]. }
  destruct (default (App.JStr "") (App.u_name d)) as [| | | |nm| |] eqn:N;
    try (right; left; unfold App.update; rewrite Q, N;
         destruct (Z.ltb_spec z 0); [lia|reflexivity]; fail).
  destruct (String.eqb_spec (default "" (App.u_id d)) "") as [E|I].
  { left. unfold App.update. rewrite Q, N, E.
    destruct (Z.ltb_spec z 0); [lia|reflexivity]. }
  right. right. exists d, z, nm. repeat (split; [assumption || reflexivity|]).
  intros _. cbv zeta. rewrite (update_route_unfold d z nm st Q L N I).
  unfold try_except, bind.
  destruct (update_drawer_returns (default "" (App.u_id d)) (PyStr.strip nm) z
              (default "Default" (App.u_cabinet d)) st) as [E|E];
    destruct (update_drawer _ _ _ _ st) as [o s]; simpl in E; subst o; simpl;
    [left|right]; split; reflexivity.
Qed.

(** X19.  The route /update stores what a sound request asks for.  With a
    database that answers, a body with a drawer id of two characters or
    more, a name that is a string and a quantity that [int] turns into an
    integer that is not negative and that sqlite takes is answered 200,
    and the drawer then reads as the stripped name and the quantity. *)
Theorem update_route_stores_request (d : App.UpdateData) (z : Z) (nm : string)
    (st : Manager) :
  healthy st ->
  App.int_of_json (default (App.JInt (-1)) (App.u_qty d)) = App.IntOk z ->
  0 <= z -> sqlite_integer z = true ->
  default (App.JStr "") (App.u_name d) = App.JStr nm ->
  invalid_id (default "" (App.u_id d)) = false ->
  exists st', App.update (App.Object d) st = (Ret 200, st') /\
    reads st' (default "" (App.u_id d)) (default "Default" (App.u_cabinet d))
          {| name := PyStr.strip nm; qty := z |}.
Proof.
  intros H Q P _ N V.
  rewrite (update_route_unfold d z nm st Q P N (invalid_id_nonempty _ V)).
  pose proof (update_drawer_reads (default "" (App.u_id d)) (PyStr.strip nm) z
                (default "Default" (App.u_cabinet d)) st H V) as R.
  unfold try_except, bind. rewrite (update_drawer_healthy _ _ _ _ _ H) in *.
  eexists. split; [reflexivity|exact R].
Qed.

Lemma update_route_stores_request_witness :
  exists st', App.update (App.Object sample_request) demo_store = (Ret 200, st') /\
    reads st' "A1" "Default" {| name := "Nuts"; qty := 7 |}.
Proof.
  apply (update_route_stores_request sample_request 7 " Nuts " demo_store);
    [reflexivity|reflexivity|lia|reflexivity|reflexivity|reflexivity].
Defined.

(** X20.  The route /search shows the entries of the padded inventory that
    match, in the order of the padded inventory, with their values; the
    query is lowercased first, and the empty query shows every drawer. *)
Theorem search_filters_padded_inventory (cabinet q : string) (st : Manager) :
  healthy st ->
  App.search cabinet q st
  = (Ret (List.filter (fun '(key, value) => App.matches (PyStr.lower q) key value)
                      (pad_inventory (inventory_of cabinet (db st)))), st) /\
  App.search cabinet "" st = (Ret (pad_inventory (inventory_of cabinet (db st))), st).
Proof.
  intros H.
  assert (S : forall q',
    App.search cabinet q' st
    = (Ret (List.filter (fun '(key, value) => App.matches (PyStr.lower q') key value)
                        (pad_inventory (inventory_of cabinet (db st)))), st)).
  { intros q'. unfold App.search, bind at 1, try_except, bind.
    rewrite (get_inventory_healthy _ _ H). unfold ret. f_equal. f_equal.
    rewrite (fold_set_filter (App.matches (PyStr.lower q'))); [reflexivity| |].
    - apply pad_inventory_NoDup, inventory_NoDup.
    - reflexivity. }
  split; [apply S|]. rewrite S. f_equal. f_equal. apply filter_all.
  intros [k v]. unfold App.matches. simpl. now rewrite is_in_empty.
Qed.

Lemma search_filters_padded_inventory_witness :
  App.search "Default" "BOLT" demo_store
  = (Ret [("B3", {| name := "Bolts"; qty := 2 |})], demo_store).
Proof.
  rewrite (proj1 (search_filters_padded_inventory "Default" "BOLT" demo_store eq_refl)).
  vm_compute. reflexivity.
Defined.



Section Malformed.

Lemma for_each_returns {A} (body : A -> M unit) l : forall st,
  (forall x s, fst (body x s) = Ret tt) -> fst (for_each l body st) = Ret tt.
Proof.
  induction l as [|x l IH]; intros st B; simpl; [reflexivity|].
  unfold bind. pose proof (B x st) as E. destruct (body x st) as [o s].
  simpl in E. subst o. now apply IH.
Qed.

Lemma for_each_skip {A} (body : A -> M unit) l1 x l2 st :
  (forall s, body x s = (Ret tt, s)) ->
  for_each (l1 ++ x :: l2) body st = for_each (l1 ++ l2) body st.
Proof.
  intros B. rewrite !for_each_app. destruct (for_each l1 body st) as [[[]|e] s];
    [|reflexivity]. simpl. unfold bind. now rewrite B.
Qed.

Lemma bulk_update_line_malformed cabinet inventory line st :
  malformed_fields line = true ->
  bulk_update_line cabinet inventory line st = (Ret tt, st).
Proof.
  unfold malformed_fields, bulk_update_line, try_except, bind, py_int.
  destruct (fields line) as [|a [|b [|c [|? ?]]]]; try reflexivity.
  - destruct (PyStr.int b); [discriminate|]. intros _.
    destruct (PyDict.mem (PyStr.upper a) inventory); reflexivity.
  - destruct (PyStr.int c); [discriminate|reflexivity].
Qed.

Lemma import_txt_line_malformed cabinet raw st :
  parse_id_name_qty (PyStr.strip raw) = None ->
  malformed_fields (PyStr.strip raw) = true ->
  import_txt_line cabinet raw st = (Ret tt, st).
Proof.
  intros P. unfold malformed_fields, import_txt_line.
  destruct (String.eqb (PyStr.strip raw) ""); [reflexivity|]. rewrite P.
  unfold bind at 1, parse_comma_separated, try_except, bind, py_int.
  destruct (fields (PyStr.strip raw)) as [|a [|b [|c [|? ?]]]]; try reflexivity.
  - destruct (PyStr.int b); [discriminate|reflexivity].
  - destruct (PyStr.int c); [discriminate|reflexivity].
Qed.

Lemma update_drawer_not_value_error drawer_id nm q cabinet (h : exn -> M unit) st :
  try_except (update_drawer drawer_id nm q cabinet)
             (fun e => match e with ValueError => ret tt | _ => raise e end) st
  = update_drawer drawer_id nm q cabinet st.
Proof.
  unfold try_except.
  destruct (update_drawer_returns drawer_id nm q cabinet st) as [E|E];
    destruct (update_drawer drawer_id nm q cabinet st) as [o s]; simpl in E; subst o;
    reflexivity.
Qed.

End Malformed.

(** X22.  [bulk_update] never raises: whatever the text, the state and the
    failures of sqlite, every line is handled and the route returns. *)
Theorem bulk_update_never_raises (cabinet : string) (text_lines : list string)
    (st : Manager) :
  fst (bulk_update cabinet text_lines st) = Ret tt.
Proof.
  unfold bulk_update. destruct (List.filter _ _) as [|l r]; [reflexivity|].
  unfold bind at 1, try_except, bind at 1.
  destruct (get_inventory cabinet st) as [[inv|e] s]; cbv beta iota; unfold ret;
    (apply (for_each_returns _ (l :: r)); intros x s'; apply bulk_update_line_returns).
Qed.

(** X23.  A malformed line of a bulk update has no effect.  With a database
    that answers, a line that is blank, or has a number of comma-separated
    fields other than two or three, or whose last field is not an integer,
    can be dropped from the text: the other lines are handled as if it were
    not there. *)
Theorem bulk_update_skips_malformed_line (cabinet : string) (l1 l2 : list string)
    (bad : string) (st : Manager) :
  healthy st -> malformed_fields (PyStr.strip bad) = true ->
  bulk_update cabinet (l1 ++ bad :: l2) st = bulk_update cabinet (l1 ++ l2) st.
Proof.
  intros H B. rewrite !bulk_update_unfold by exact H.
  rewrite !nonblank_app. unfold nonblank at 2. simpl.
  destruct (String.eqb (PyStr.strip bad) ""); simpl; [reflexivity|].
  apply for_each_skip. intros s. now apply bulk_update_line_malformed.
Qed.

Lemma bulk_update_skips_malformed_line_witness :
  bulk_update "Default" (["A1,Nuts,7"] ++ "A2,Washers,many" :: ["A3,Pins,1"]) demo_store
  = bulk_update "Default" (["A1,Nuts,7"] ++ ["A3,Pins,1"]) demo_store.
Proof.
  apply (bulk_update_skips_malformed_line "Default" ["A1,Nuts,7"] ["A3,Pins,1"]
           "A2,Washers,many" demo_store); reflexivity.
Defined.

(** X24.  A malformed line of a TXT import has no effect, for every state: a
    line that is not of the shape "id: name (quantity)" and is blank, or
    has a number of comma-separated fields other than two or three, or
    whose last field is not an integer, can be dropped from the file. *)
Theorem import_txt_skips_malformed_line (cabinet : string) (l1 l2 : list string)
    (bad : string) (st : Manager) :
  parse_id_name_qty (PyStr.strip bad) = None ->
  malformed_fields (PyStr.strip bad) = true ->
  import_txt cabinet (l1 ++ bad :: l2) st = import_txt cabinet (l1 ++ l2) st.
Proof.
  intros P B. unfold import_txt, try_except, bind.
  rewrite for_each_skip; [reflexivity|].
  intros s. now apply import_txt_line_malformed.
Qed.

Lemma import_txt_skips_malformed_line_witness :
  import_txt "Default" (["A1,Nuts,7"] ++ "A2: Washers (many)" :: ["A3,Pins,1"]) demo_store
  = import_txt "Default" (["A1,Nuts,7"] ++ ["A3,Pins,1"]) demo_store.
Proof.
  apply (import_txt_skips_malformed_line "Default" ["A1,Nuts,7"] ["A3,Pins,1"]
           "A2: Washers (many)" demo_store); reflexivity.
Defined.

(** X25.  A CSV row that is short is not skipped: under the header
    ID,Name,Quantity, or a header without those columns, a row that holds
    only an id is the call [update_drawer(id, "", 0, cabinet)] and a row
    that holds an id and a name is [update_drawer(id, name, 0, cabinet)],
    for every state; an empty row is skipped, and so is a row whose
    third cell is not an integer. *)
Theorem import_csv_short_rows (cabinet : string) (header : list string)
    (c0 c1 c2 : string) (more : list string) (st : Manager) :
  csv_columns (Some header) = (0, 1, 2) \/ csv_columns (Some header) = (-1, -1, -1) ->
  let '(id_col, name_col, qty_col) := csv_columns (Some header) in
  import_csv_row cabinet id_col name_col qty_col [c0] st
  = update_drawer (PyStr.upper (PyStr.strip c0)) "" 0 cabinet st /\
  import_csv_row cabinet id_col name_col qty_col [c0; c1] st
  = update_drawer (PyStr.upper (PyStr.strip c0)) (PyStr.strip c1) 0 cabinet st /\
  import_csv_row cabinet id_col name_col qty_col [] st = (Ret tt, st) /\
  (PyStr.int (PyStr.strip c2) = None ->
   import_csv_row cabinet id_col name_col qty_col (c0 :: c1 :: c2 :: more) st
   = (Ret tt, st)).
Proof.
  intros [E|E]; rewrite E; (split; [|split; [|split; [reflexivity|]]]).
  1, 2, 4, 5:
    unfold import_csv_row, item, py_int;
    cbv beta iota zeta delta
        [length Z.of_nat Z.to_nat Pos.of_succ_nat Pos.succ Pos.to_nat Pos.iter_op
         Z.gtb Z.eqb Z.compare Pos.compare Pos.compare_cont Nat.add negb andb nth
         CompOpp Pos.eqb];
    unfold bind at 1; unfold ret at 1;
    apply (update_drawer_not_value_error _ _ _ _ (fun _ => ret tt)).
  all: intros I; unfold import_csv_row, item, py_int;
    set (n := Z.of_nat (length (c0 :: c1 :: c2 :: more)));
    assert (N : 3 <= n) by (subst n; simpl length; lia);
    destruct (Z.gtb_spec n 0); [|lia]; destruct (Z.gtb_spec n 1); [|lia];
    destruct (Z.gtb_spec n 2); [|lia];
    cbv beta iota delta [Z.eqb Pos.eqb negb andb Z.to_nat Pos.to_nat Pos.iter_op Nat.add nth];
    unfold try_except, bind; rewrite I; reflexivity.
Qed.

Section StoreFailure.

(** [update_drawer] when the read answers and the write fails. *)
Lemma update_drawer_write_fails drawer_id nm q cabinet st fs :
  invalid_id drawer_id = false -> sqlite_faults st = false :: true :: fs ->
  update_drawer drawer_id nm q cabinet st
  = (Raise SqliteError,
     set_sqlite_faults fs
       (set_redo_stack []
          (set_action_history
             (append (action_for (drawer_at (db st) drawer_id cabinet)
                                 drawer_id nm q cabinet)
                     (action_history st)) st))).
Proof.
  intros V F.
  assert (G : get_drawer drawer_id cabinet st
              = (Ret (drawer_at (db st) drawer_id cabinet),
                 set_sqlite_faults (true :: fs) st)).
  { unfold get_drawer, drawer_at. rewrite V.
    unfold try_except, bind, sqlite_query, next_fault. rewrite F. cbn [db set_sqlite_faults].
    destruct (db st !! _); reflexivity. }
  rewrite update_drawer_unfold, G. cbn [fst].
  unfold _update_drawer_in_db. rewrite V. unfold sqlite_exec, next_fault. reflexivity.
Qed.

Lemma import_txt_line_three cabinet raw location nm qs q st :
  parse_id_name_qty (PyStr.strip raw) = None ->
  fields (PyStr.strip raw) = [location; nm; qs] -> PyStr.int qs = Some q ->
  PyStr.upper location <> "" ->
  import_txt_line cabinet raw st = update_drawer (PyStr.upper location) nm q cabinet st.
Proof.
  intros P F I N. unfold import_txt_line.
  destruct (String.eqb_spec (PyStr.strip raw) "") as [E|_];
    [now apply fields_nonempty in F|].
  rewrite P. unfold bind at 1, parse_comma_separated. rewrite F.
  unfold try_except, bind, py_int. rewrite I. unfold ret.
  destruct (String.eqb_spec (PyStr.upper location) ""); [contradiction|]. reflexivity.
Qed.

End StoreFailure.

(** X26.  A failure of the store stops a TXT import and nothing is rolled
    back.  When the lines before were handled and the write of a
    three-field line fails, [import_txt] answers False; the table is the
    one the lines before left, the action of the failed line is on the
    history, and the lines after it are not handled: the outcome does not
    depend on them. *)
Theorem import_txt_stops_at_store_failure (cabinet : string)
    (before after : list string) (raw location nm qs : string) (q : Z)
    (st0 st : Manager) (fs : list bool) :
  for_each before (import_txt_line cabinet) st0 = (Ret tt, st) ->
  parse_id_name_qty (PyStr.strip raw) = None ->
  fields (PyStr.strip raw) = [location; nm; qs] -> PyStr.int qs = Some q ->
  invalid_id (PyStr.upper location) = false ->
  sqlite_faults st = false :: true :: fs ->
  exists st',
    import_txt cabinet (before ++ raw :: after) st0 = (Ret false, st') /\
    db st' = db st /\ sqlite_faults st' = fs /\
    action_history st'
    = append (action_for (drawer_at (db st) (PyStr.upper location) cabinet)
                         (PyStr.upper location) nm q cabinet)
             (action_history st).
Proof.
  intros B P F I V T. eexists.
  unfold import_txt, try_except, bind at 1. rewrite for_each_app, B.
  cbn [for_each]. unfold bind at 1.
  rewrite (import_txt_line_three _ _ _ _ _ _ _ P F I (invalid_id_nonempty _ V)).
  rewrite (update_drawer_write_fails _ _ _ _ _ _ V T).
  split; [reflexivity|]. repeat split; reflexivity.
Qed.

Lemma import_txt_stops_at_store_failure_witness :
  exists st',
    import_txt "Default" ([] ++ "A1,Nuts,7" :: ["A2,Pins,1"]) failing_write_store
    = (Ret false, st') /\
    db st' = db failing_write_store.
Proof.
  destruct (import_txt_stops_at_store_failure "Default" [] ["A2,Pins,1"]
              "A1,Nuts,7" "A1" "Nuts" "7" 7 failing_write_store failing_write_store []
              eq_refl eq_refl eq_refl eq_refl eq_refl eq_refl) as (st' & E & D & _).
  exists st'. split; [exact E|exact D].
Defined.



Lemma import_csv_short_rows_witness :
  import_csv_row "Default" 0 1 2 ["B3"] demo_store
  = update_drawer "B3" "" 0 "Default" demo_store.
Proof.
  exact (proj1 (import_csv_short_rows "Default" ["ID"; "Name"; "Quantity"]
                  "B3" "" "" [] demo_store (or_introl eq_refl))).
Defined.

Section Answers.

Lemma batch_answers (m : M unit) st :
  let r := try_except (do _ <- m ; ret true) (fun _ => ret false) st in
  fst r = Ret true \/ fst r = Ret false.
Proof.
  unfold try_except, bind. destruct (m st) as [[[]|e] s]; simpl; auto.
Qed.

End Answers.

(** X28.  The imports never raise: for every input, every state and every
    schedule of sqlite failures, [import_txt], [import_csv], [import_json]
    and [import_excel] answer True or False. *)
Theorem imports_never_raise (cabinet : string) (lines : list string)
    (rows : list (list string)) (data : list (string * JsonDetails))
    (cells : list (string * string * Z)) (st : Manager) :
  (fst (import_txt cabinet lines st) = Ret true \/
   fst (import_txt cabinet lines st) = Ret false) /\
  (fst (import_csv cabinet rows st) = Ret true \/
   fst (import_csv cabinet rows st) = Ret false) /\
  (fst (import_json cabinet data st) = Ret true \/
   fst (import_json cabinet data st) = Ret false) /\
  (fst (import_excel cabinet cells st) = Ret true \/
   fst (import_excel cabinet cells st) = Ret false).
Proof.
  split; [apply batch_answers|]. split; [|split; apply batch_answers].
  unfold import_csv. destruct (csv_columns (hd_error rows)) as [[i n] k].
  apply batch_answers.
Qed.

(** X29.  Backup and restore.  With a database that answers and stored
    identifiers that are uppercase-normalized: export a cabinet as JSON,
    clear the inventory, import the export into the same cabinet.  When
    the names of the cabinet have no surrounding white space, every drawer
    that the export lists reads after the import as it read before the
    clearing. *)
Theorem json_export_clear_import_restores (cabinet : string) (st : Manager) :
  healthy st -> normalized (db st) ->
  forallb json_safe (pad_inventory (inventory_of cabinet (db st))) = true ->
  exists data st1 st2,
    export_json cabinet st = (Ret (Some data), st) /\
    clear_inventory st = (Ret tt, st1) /\
    (forall drawer_id c, reads st1 drawer_id c empty_drawer) /\
    import_json cabinet data st1 = (Ret true, st2) /\
    forall k, PyDict.mem k (pad_inventory (inventory_of cabinet (db st))) = true ->
              reads st2 k cabinet (drawer_at (db st) k cabinet).
Proof.
  intros H N S. set (inv := pad_inventory (inventory_of cabinet (db st))) in *.
  assert (H1 : healthy (set_db ∅ st)) by exact H.
  destruct (writes_restore inv cabinet (set_db ∅ st) H1 (padded_NoDup _ _) S)
    as (st2 & W & _ & R & _).
  eexists _, (set_db ∅ st), st2.
  split; [unfold export_json, try_except, bind; rewrite (get_inventory_healthy _ _ H);
          reflexivity|].
  fold inv. split; [apply (clear_inventory_healthy _ H)|]. split.
  - intros drawer_id c. unfold reads. rewrite get_drawer_healthy by exact H1.
    cbn [db set_db]. f_equal. f_equal. unfold drawer_at.
    destruct (invalid_id drawer_id); [reflexivity|]. rewrite lookup_empty. reflexivity.
  - split.
    + unfold import_json. apply import_batch_true. rewrite for_each_map, <- W.
      apply for_each_writes; [exact H1|].
      intros [k d] s I Hh. apply import_json_entry_healthy; [exact Hh|].
      rewrite forallb_forall in S. apply (S _ I).
    + intros k M. apply dict_mem_get in M.
      destruct (PyDict.get k inv) as [d|] eqn:G; [|contradiction].
      destruct (snapshot_get_normalized _ _ _ _ N G) as [_ D]. rewrite D.
      apply (R k d G).
Qed.

Lemma json_export_clear_import_restores_witness :
  exists data st1 st2,
    export_json "Default" demo_store = (Ret (Some data), demo_store) /\
    clear_inventory demo_store = (Ret tt, st1) /\
    import_json "Default" data st1 = (Ret true, st2) /\
    reads st2 "B3" "Default" {| name := "Bolts"; qty := 2 |}.
Proof.
  destruct (json_export_clear_import_restores "Default" demo_store
              eq_refl demo_store_normalized) as (data & st1 & st2 & E & C & _ & I & R).
  - vm_compute. reflexivity.
  - exists data, st1, st2. split; [exact E|]. split; [exact C|]. split; [exact I|].
    apply (R "B3"). vm_compute. reflexivity.
Defined.
